(** * The Python example skill ([examples/wasm-skills/python-skill/src/main.py])

    A shallow embedding of [PythonExampleSkill] and of the part of the
    Python runtime its tools rely on, followed by the properties that the
    specification states about the tools [echo], [calculate],
    [process_list] and [status].

    Conventions of the embedding.
    - A Python [str] is a sequence of Unicode code points: [list N].
    - A Python [float] is an IEEE-754 binary64 value: Rocq's primitive
      [float].  A Python [int] is unbounded: [Z].
    - A computation that may raise is a value of [pyresult]; [try]/[except]
      is a match on the raised exception.
    - Interpreter resource limits (recursion depth, the digit limit of
      int/str conversion, memory) are outside the model. *)

From Stdlib Require Import String Ascii DecimalString.
From Stdlib Require Import ZArith NArith PeanoNat Bool List.
From Stdlib Require Import Floats SpecFloat Lia.
Import ListNotations.

Set Warnings "-register-all,-inexact-float".

(* ================================================================== *)
(** ** Python strings *)

Module PyStr.

Definition str := list N.

(** The code point of an ASCII character, and a [str] literal. *)
Definition cp (c : ascii) : N := N_of_ascii c.

Definition lit (s : String.string) : str :=
  map N_of_ascii (String.list_ascii_of_string s).

Fixpoint eqb (s t : str) : bool :=
  match s, t with
  | [], [] => true
  | c :: s', d :: t' => N.eqb c d && eqb s' t'
  | _, _ => false
  end.

(** [s.startswith(p)] *)
Fixpoint startswith (p s : str) : bool :=
  match p, s with
  | [], _ => true
  | c :: p', d :: s' => N.eqb c d && startswith p' s'
  | _ :: _, [] => false
  end.

(** [needle in hay] *)
Fixpoint contains (needle hay : str) : bool :=
  startswith needle hay ||
  match hay with
  | [] => false
  | _ :: hay' => contains needle hay'
  end.

(** [sep.join(parts)] *)
Fixpoint join (sep : str) (parts : list str) : str :=
  match parts with
  | [] => []
  | [p] => p
  | p :: rest => p ++ sep ++ join sep rest
  end.

(** [s[i:j]] for [0 <= i <= j] *)
Definition slice (s : str) (i j : nat) : str := firstn (j - i) (skipn i s).

(** [str(z)] for an int: its decimal numeral. *)
Definition of_int (z : Z) : str :=
  lit (DecimalString.NilZero.string_of_int (Z.to_int z)).

Definition of_nat (n : nat) : str := of_int (Z.of_nat n).

(** [s.upper()].  Python maps every character through the Unicode full
    upper-case mapping, without context; one character may become several.
    The mapping of the ASCII range is fixed here, the rest of the Unicode
    table is the parameter [unicode_upper]. *)
Definition ascii_upper (c : N) : N :=
  if (N.leb 97 c && N.leb c 122)%bool then (c - 32)%N else c.

Definition upper_char (unicode_upper : N -> list N) (c : N) : list N :=
  if N.ltb c 128 then [ascii_upper c] else unicode_upper c.

Definition upper (unicode_upper : N -> list N) (s : str) : str :=
  flat_map (upper_char unicode_upper) s.

(** [s[::-1]] *)
Definition reversed (s : str) : str := rev s.

End PyStr.

Import PyStr.

(* ================================================================== *)
(** ** Exceptions and the result of a Python computation *)

(** The exception classes the program can meet.  [JSONDecodeError] is a
    subclass of [ValueError]; [StopIteration] is the scanner's internal
    signal for "no value starts here". *)
Inductive exn : Type :=
| JSONDecodeError (msg : str) (doc : str) (pos : nat)
| ValueError (msg : str)
| OverflowError (msg : str)
| ZeroDivisionError (msg : str)
| StopIteration (value : nat)
| RecursionError.

Inductive pyresult (A : Type) : Type :=
| Ret (a : A)
| Raise (e : exn).

Arguments Ret {A} a.
Arguments Raise {A} e.

Definition bind {A B} (m : pyresult A) (k : A -> pyresult B) : pyresult B :=
  match m with
  | Ret a => k a
  | Raise e => Raise e
  end.

Declare Scope py_scope.
Delimit Scope py_scope with py.
Notation "x <- m ;; k" := (bind m (fun x => k))
  (at level 61, m at next level, right associativity) : py_scope.
Notation "' p <- m ;; k" := (bind m (fun x => match x with p => k end))
  (at level 61, p pattern, m at next level, right associativity) : py_scope.
Open Scope py_scope.

Definition returns {A} (m : pyresult A) : bool :=
  match m with Ret _ => true | Raise _ => false end.

(* ================================================================== *)
(** ** Python numbers *)

Module PyNum.

(** binary64: 53 bits of precision, exponents below 1024. *)
Definition prec : Z := 53.
Definition emax : Z := 1024.

(** A value of [int] or [float]. *)
Inductive number : Type :=
| PyInt (z : Z)
| PyFloat (f : float).

(** An integer as a (not necessarily normalised) binary float. *)
Definition SF_of_Z (z : Z) : spec_float :=
  match z with
  | Z0 => S754_zero false
  | Zpos p => S754_finite false p 0
  | Zneg p => S754_finite true p 0
  end.

(** [float(z)] for an int [z]: the nearest binary64 value, ties to even;
    OverflowError when that is out of range. *)
Definition float_of_int (z : Z) : pyresult float :=
  match binary_normalize prec emax z 0 false with
  | S754_infinity _ =>
      Raise (OverflowError (lit "int too large to convert to float"))
  | f => Ret (SF2Prim f)
  end.

(** [float(x)] for a number. *)
Definition to_float (x : number) : pyresult float :=
  match x with
  | PyInt z => float_of_int z
  | PyFloat f => Ret f
  end.

(** [x == 0] and [x != 0]: the comparison of a float with the int 0 is
    exact, so it is the IEEE comparison with 0.0 (true for -0.0, false for
    NaN). *)
Definition is_zero (x : number) : bool :=
  match x with
  | PyInt z => Z.eqb z 0
  | PyFloat f => PrimFloat.eqb f 0%float
  end.

Definition ne_zero (x : number) : bool := negb (is_zero x).

(** The binary operators [+], [-], [*]: exact on two ints; otherwise the int
    operand, if any, is converted and the IEEE operation applies. *)
Definition arith (iop : Z -> Z -> Z) (fop : float -> float -> float)
    (x y : number) : pyresult number :=
  match x, y with
  | PyInt a, PyInt b => Ret (PyInt (iop a b))
  | _, _ =>
      fx <- to_float x ;;
      fy <- to_float y ;;
      Ret (PyFloat (fop fx fy))
  end.

Definition add := arith Z.add PrimFloat.add.
Definition sub := arith Z.sub PrimFloat.sub.
Definition mul := arith Z.mul PrimFloat.mul.

(** True division [x / y].  Two ints give the correctly rounded quotient,
    or OverflowError when it is out of range; a zero divisor raises
    ZeroDivisionError. *)
Definition int_truediv (a b : Z) : pyresult float :=
  if Z.eqb b 0 then Raise (ZeroDivisionError (lit "division by zero"))
  else
    match SFdiv prec emax (SF_of_Z a) (SF_of_Z b) with
    | S754_infinity _ =>
        Raise (OverflowError
                 (lit "integer division result too large for a float"))
    | q => Ret (SF2Prim q)
    end.

Definition truediv (x y : number) : pyresult number :=
  match x, y with
  | PyInt a, PyInt b => q <- int_truediv a b ;; Ret (PyFloat q)
  | _, _ =>
      fx <- to_float x ;;
      fy <- to_float y ;;
      if PrimFloat.eqb fy 0%float
      then Raise (ZeroDivisionError (lit "float division by zero"))
      else Ret (PyFloat (PrimFloat.div fx fy))
  end.

(** [x == y] on numbers, as Python compares them: by value, an int and a
    float being equal when the float is that integer exactly. *)
Definition float_is_int (f : float) (z : Z) : bool :=
  match Prim2SF f, z with
  | S754_zero _, Z0 => true
  | S754_finite s m e, _ =>
      if Z.leb 0 e
      then Z.eqb z ((if s then -1 else 1) * Z.pos m * 2 ^ e)
      else Z.eqb (z * 2 ^ (- e)) ((if s then -1 else 1) * Z.pos m)
  | _, _ => false
  end.

Definition eqb (x y : number) : bool :=
  match x, y with
  | PyInt a, PyInt b => Z.eqb a b
  | PyInt a, PyFloat f | PyFloat f, PyInt a => float_is_int f a
  | PyFloat f, PyFloat g => PrimFloat.eqb f g
  end.

(** The builtins [sum], [min] and [max] on a list of floats.  [sum] adds
    from the left starting at the int 0, which the first addition converts
    to 0.0 (CPython 3.12 and later also compensate the rounding errors of
    the partial sums; on sums that are exact, as in the examples below,
    both give the same float).  [min] and [max] keep the first of several
    extremal items and raise ValueError on an empty list. *)
Definition sum (l : list float) : number :=
  match l with
  | [] => PyInt 0
  | _ :: _ => PyFloat (fold_left PrimFloat.add l 0%float)
  end.

Definition min (l : list float) : pyresult float :=
  match l with
  | [] => Raise (ValueError (lit "min() arg is an empty sequence"))
  | x :: rest =>
      Ret (fold_left (fun m y => if PrimFloat.ltb y m then y else m) rest x)
  end.

Definition max (l : list float) : pyresult float :=
  match l with
  | [] => Raise (ValueError (lit "max() arg is an empty sequence"))
  | x :: rest =>
      Ret (fold_left (fun m y => if PrimFloat.ltb m y then y else m) rest x)
  end.

End PyNum.

Import PyNum.

(* ================================================================== *)
(** ** Python values and dicts *)

(** The values that flow through the tools: what [json.loads] produces and
    what the result dicts hold.  [bool] is a subclass of [int] in Python;
    the constructors keep them apart and [isinstance] below accounts for
    the subclassing. *)
Inductive pyval : Type :=
| VNone
| VBool (b : bool)
| VInt (z : Z)
| VFloat (f : float)
| VStr (s : str)
| VList (l : list pyval)
| VDict (d : list (str * pyval)).

Definition val_of_number (x : number) : pyval :=
  match x with
  | PyInt z => VInt z
  | PyFloat f => VFloat f
  end.

(** A dict keeps its keys in insertion order: an association list without
    repeated keys. *)
Definition dict := list (str * pyval).

Fixpoint dict_get (k : str) (d : dict) : option pyval :=
  match d with
  | [] => None
  | (k', v) :: d' => if PyStr.eqb k k' then Some v else dict_get k d'
  end.

Fixpoint dict_set (k : str) (v : pyval) (d : dict) : dict :=
  match d with
  | [] => [(k, v)]
  | (k', v') :: d' =>
      if PyStr.eqb k k' then (k', v) :: d' else (k', v') :: dict_set k v d'
  end.

(** [dict(pairs)] *)
Definition dict_of_pairs (pairs : list (str * pyval)) : dict :=
  fold_left (fun d kv => dict_set (fst kv) (snd kv) d) pairs [].

(** A number in a value: [v == x] for the comparisons the tests make. *)
Definition val_num_eqb (v : pyval) (x : number) : bool :=
  match v with
  | VInt z => PyNum.eqb (PyInt z) x
  | VFloat f => PyNum.eqb (PyFloat f) x
  | VBool b => PyNum.eqb (PyInt (if b then 1 else 0)) x
  | _ => false
  end.

(* ================================================================== *)
(** ** [json.loads]

    The decoder of Python's standard library, after [json/decoder.py] and
    [json/scanner.py]: a recursive-descent scanner over the document [s]
    and an index into it.  Digits are the ASCII digits and a [\u] escape
    takes four hexadecimal digits, as in the C accelerator that CPython
    runs.  The texts of the diagnostics for string escapes are shortened
    (the character in question is not quoted back). *)

Module Json.

Definition is_ws (c : N) : bool :=
  N.eqb c 32 || N.eqb c 9 || N.eqb c 10 || N.eqb c 13.

Definition is_digit (c : N) : bool := N.leb 48 c && N.leb c 57.

Fixpoint take_while (p : N -> bool) (l : str) : str :=
  match l with
  | c :: l' => if p c then c :: take_while p l' else []
  | [] => []
  end.

(** [WHITESPACE.match(s, idx).end()] *)
Definition skip_ws (s : str) (idx : nat) : nat :=
  let idx := Nat.min idx (length s) in
  idx + length (take_while is_ws (skipn idx s)).

(** *** Strings *)

Definition quote : N := 34.
Definition backslash : N := 92.

(** The table [BACKSLASH] of one-character escapes. *)
Definition backslash_table (esc : N) : option N :=
  if N.eqb esc quote then Some quote
  else if N.eqb esc backslash then Some backslash
  else if N.eqb esc (cp "/") then Some (cp "/")
  else if N.eqb esc (cp "b") then Some 8%N
  else if N.eqb esc (cp "f") then Some 12%N
  else if N.eqb esc (cp "n") then Some 10%N
  else if N.eqb esc (cp "r") then Some 13%N
  else if N.eqb esc (cp "t") then Some 9%N
  else None.

Definition hex_digit (c : N) : option N :=
  if is_digit c then Some (c - 48)%N
  else if N.leb 97 c && N.leb c 102 then Some (c - 87)%N
  else if N.leb 65 c && N.leb c 70 then Some (c - 55)%N
  else None.

(** [_decode_uXXXX]: the value of four hexadecimal digits. *)
Definition decode_uXXXX (h1 h2 h3 h4 : N) : option N :=
  match hex_digit h1, hex_digit h2, hex_digit h3, hex_digit h4 with
  | Some a, Some b, Some c, Some d =>
      Some (((a * 16 + b) * 16 + c) * 16 + d)%N
  | _, _, _, _ => None
  end.

Definition is_high_surrogate (u : N) : bool := N.leb 55296 u && N.leb u 56319.
Definition is_low_surrogate (u : N) : bool := N.leb 56320 u && N.leb u 57343.

Definition bad_escape (s : str) (pos : nat) : exn :=
  JSONDecodeError (lit "Invalid \uXXXX escape") s pos.

Definition unterminated (s : str) (begin : nat) : exn :=
  JSONDecodeError (lit "Unterminated string starting at") s begin.

(** [py_scanstring(s, end)], from the remaining characters [r] at index
    [end_]; [begin] is the index of the opening quote and [chunks] the
    characters read so far. *)
Fixpoint scanstring_loop (s : str) (begin : nat) (r : str) (end_ : nat)
    (chunks : str) {struct r} : pyresult (str * nat) :=
  match r with
  | [] => Raise (unterminated s begin)
  | c :: r1 =>
    if N.eqb c quote then Ret (chunks, end_ + 1)
    else if N.ltb c 32 then
      Raise (JSONDecodeError (lit "Invalid control character at") s end_)
    else if negb (N.eqb c backslash) then
      scanstring_loop s begin r1 (end_ + 1) (chunks ++ [c])
    else
      match r1 with
      | [] => Raise (unterminated s begin)
      | esc :: r2 =>
        if negb (N.eqb esc (cp "u")) then
          match backslash_table esc with
          | Some char =>
              scanstring_loop s begin r2 (end_ + 2) (chunks ++ [char])
          | None => Raise (JSONDecodeError (lit "Invalid \escape") s (end_ + 1))
          end
        else
          match r2 with
          | h1 :: h2 :: h3 :: h4 :: r3 =>
            match decode_uXXXX h1 h2 h3 h4 with
            | None => Raise (bad_escape s (end_ + 1))
            | Some uni =>
              match r3 with
              | b :: u :: r3' =>
                if is_high_surrogate uni && N.eqb b backslash
                   && N.eqb u (cp "u")
                then
                  match r3' with
                  | g1 :: g2 :: g3 :: g4 :: r4 =>
                    match decode_uXXXX g1 g2 g3 g4 with
                    | None => Raise (bad_escape s (end_ + 7))
                    | Some uni2 =>
                      if is_low_surrogate uni2 then
                        scanstring_loop s begin r4 (end_ + 12)
                          (chunks ++
                           [65536 + ((uni - 55296) * 1024 + (uni2 - 56320))]%N)
                      else
                        scanstring_loop s begin r3 (end_ + 6) (chunks ++ [uni])
                    end
                  | _ => Raise (bad_escape s (end_ + 7))
                  end
                else scanstring_loop s begin r3 (end_ + 6) (chunks ++ [uni])
              | _ => scanstring_loop s begin r3 (end_ + 6) (chunks ++ [uni])
              end
            end
          | _ => Raise (bad_escape s (end_ + 1))
          end
      end
  end.

Definition scanstring (s : str) (end_ : nat) : pyresult (str * nat) :=
  scanstring_loop s (end_ - 1) (skipn end_ s) end_ [].

(** *** Numbers *)

(** [NUMBER_RE.match]: the groups (integer, frac, exp) of the match at the
    head of [r], if there is one.  The integer group is an optional minus
    sign followed by 0 or by a digit string without a leading 0; the
    optional frac group is a dot and at least one digit; the optional exp
    group is e or E, an optional sign and at least one digit. *)
Definition match_integer (r : str) : option (str * str) :=
  let '(sign, r1) :=
    match r with
    | c :: r' => if N.eqb c (cp "-") then ([c], r') else ([], r)
    | [] => ([], r)
    end in
  match r1 with
  | d :: r2 =>
      if N.eqb d (cp "0") then Some (sign ++ [d], r2)
      else if is_digit d then
        let ds := take_while is_digit r2 in
        Some (sign ++ d :: ds, skipn (length ds) r2)
      else None
  | [] => None
  end.

Definition match_frac (r : str) : option str * str :=
  match r with
  | c :: r1 =>
      let ds := take_while is_digit r1 in
      if N.eqb c (cp ".") && negb (Nat.eqb (length ds) 0)
      then (Some (c :: ds), skipn (length ds) r1)
      else (None, r)
  | [] => (None, r)
  end.

Definition match_exp (r : str) : option str * str :=
  match r with
  | c :: r1 =>
      if N.eqb c (cp "e") || N.eqb c (cp "E") then
        let '(sign, r2) :=
          match r1 with
          | x :: r' =>
              if N.eqb x (cp "-") || N.eqb x (cp "+") then ([x], r')
              else ([], r1)
          | [] => ([], r1)
          end in
        let ds := take_while is_digit r2 in
        if Nat.eqb (length ds) 0 then (None, r)
        else (Some (c :: sign ++ ds), skipn (length ds) r2)
      else (None, r)
  | [] => (None, r)
  end.

Definition match_number (r : str) : option (str * option str * option str) :=
  match match_integer r with
  | None => None
  | Some (integer, r1) =>
      let '(frac, r2) := match_frac r1 in
      let '(exp, _) := match_exp r2 in
      Some (integer, frac, exp)
  end.

Definition group_length (g : option str) : nat :=
  match g with
  | Some t => length t
  | None => 0
  end.

(** The value of a run of decimal digits. *)
Definition digits_value (ds : str) : Z :=
  fold_left (fun acc c => 10 * acc + Z.of_N (c - 48))%Z ds 0%Z.

Definition strip_sign (t : str) : bool * str :=
  match t with
  | c :: t' =>
      if N.eqb c (cp "-") then (true, t')
      else if N.eqb c (cp "+") then (false, t')
      else (false, t)
  | [] => (false, t)
  end.

(** [int(integer)] *)
Definition parse_int (integer : str) : Z :=
  let '(neg, ds) := strip_sign integer in
  if neg then (- digits_value ds)%Z else digits_value ds.

(** The binary64 value nearest to [(-1)^neg * m * 10^e10]. *)
Definition float_of_decimal (neg : bool) (m : Z) (e10 : Z) : float :=
  match m with
  | Zpos p =>
      if Z.leb 0 e10
      then SF2Prim (binary_normalize prec emax
                      ((if neg then -1 else 1) * m * 10 ^ e10) 0 false)
      else SF2Prim (SFdiv prec emax (S754_finite neg p 0)
                      (SF_of_Z (10 ^ (- e10))))
  | _ => SF2Prim (S754_zero neg)
  end.

(** [float(integer + frac + exp)] on the groups of a number match. *)
Definition parse_float (integer : str) (frac exp : option str) : float :=
  let '(neg, ds) := strip_sign integer in
  let fs := match frac with Some (_ :: fs) => fs | _ => [] end in
  let e :=
    match exp with
    | Some (_ :: t) =>
        let '(eneg, es) := strip_sign t in
        if eneg then (- digits_value es)%Z else digits_value es
    | _ => 0%Z
    end in
  float_of_decimal neg (digits_value (ds ++ fs)) (e - Z.of_nat (length fs)).

(** *** Containers and the scanner *)

Definition is_char (c : N) (o : option N) : bool :=
  match o with
  | Some d => N.eqb d c
  | None => false
  end.

Definition expecting_value (s : str) (pos : nat) : exn :=
  JSONDecodeError (lit "Expecting value") s pos.

Definition expecting_comma (s : str) (pos : nat) : exn :=
  JSONDecodeError (lit "Expecting ',' delimiter") s pos.

Definition expecting_name (s : str) (pos : nat) : exn :=
  JSONDecodeError (lit "Expecting property name enclosed in double quotes")
    s pos.

Section Containers.

(** [JSONArray] and [JSONObject] receive the scanner as an argument, as
    in the library. *)
Variable scan_once : str -> nat -> pyresult (pyval * nat).

Definition scan_value (s : str) (end_ : nat) : pyresult (pyval * nat) :=
  match scan_once s end_ with
  | Raise (StopIteration p) => Raise (expecting_value s p)
  | r => r
  end.

(** The [while True] loop of [JSONArray].  [n] bounds its iterations;
    [JSONArray] gives it more than the document has characters, and every
    iteration consumes one, so that the bound is never met
    ([JsonFacts.loads_outcome]). *)
Fixpoint array_loop (n : nat) (s : str) (end_ : nat) (values : list pyval)
    : pyresult (pyval * nat) :=
  match n with
  | O => Raise RecursionError
  | S n' =>
    '(value, end_) <- scan_value s end_ ;;
    let values := values ++ [value] in
    let end_ := skip_ws s end_ in
    let nextchar := nth_error s end_ in
    if is_char (cp "]") nextchar then Ret (VList values, end_ + 1)
    else if negb (is_char (cp ",") nextchar) then
      Raise (expecting_comma s end_)
    else array_loop n' s (skip_ws s (end_ + 1)) values
  end.

Definition JSONArray (s : str) (end_ : nat) : pyresult (pyval * nat) :=
  let end_ := skip_ws s end_ in
  if is_char (cp "]") (nth_error s end_) then Ret (VList [], end_ + 1)
  else array_loop (S (length s)) s end_ [].

(** The loop of [JSONObject]; [end_] is the index after the opening
    quote of the next key. *)
Fixpoint object_loop (n : nat) (s : str) (end_ : nat)
    (pairs : list (str * pyval)) : pyresult (pyval * nat) :=
  match n with
  | O => Raise RecursionError
  | S n' =>
    '(key, end_) <- scanstring s end_ ;;
    let end_ := skip_ws s end_ in
    if negb (is_char (cp ":") (nth_error s end_)) then
      Raise (JSONDecodeError (lit "Expecting ':' delimiter") s end_)
    else
      '(value, end_) <- scan_value s (skip_ws s (end_ + 1)) ;;
      let pairs := pairs ++ [(key, value)] in
      let end_ := skip_ws s end_ in
      let nextchar := nth_error s end_ in
      if is_char (cp "}") nextchar then
        Ret (VDict (dict_of_pairs pairs), end_ + 1)
      else if negb (is_char (cp ",") nextchar) then
        Raise (expecting_comma s end_)
      else
        let end_ := skip_ws s (end_ + 1) in
        if negb (is_char quote (nth_error s end_)) then
          Raise (expecting_name s end_)
        else object_loop n' s (end_ + 1) pairs
  end.

Definition JSONObject (s : str) (end_ : nat) : pyresult (pyval * nat) :=
  let end_ := skip_ws s end_ in
  let nextchar := nth_error s end_ in
  if is_char (cp "}") nextchar then Ret (VDict [], end_ + 1)
  else if negb (is_char quote nextchar) then Raise (expecting_name s end_)
  else object_loop (S (length s)) s (end_ + 1) [].

End Containers.

Definition literal_at (s : str) (idx : nat) (word : str) : bool :=
  PyStr.eqb (slice s idx (idx + length word)) word.

(** [scan_once(string, idx)].  [depth] bounds the nesting of the recursive
    calls, where CPython raises RecursionError at the limit of the
    interpreter. *)
Fixpoint scan_once (depth : nat) (s : str) (idx : nat)
    : pyresult (pyval * nat) :=
  match depth with
  | O => Raise RecursionError
  | S depth' =>
    match nth_error s idx with
    | None => Raise (StopIteration idx)
    | Some nextchar =>
      if N.eqb nextchar quote then
        '(v, end_) <- scanstring s (idx + 1) ;; Ret (VStr v, end_)
      else if N.eqb nextchar (cp "{") then
        JSONObject (scan_once depth') s (idx + 1)
      else if N.eqb nextchar (cp "[") then
        JSONArray (scan_once depth') s (idx + 1)
      else if literal_at s idx (lit "null") then Ret (VNone, idx + 4)
      else if literal_at s idx (lit "true") then Ret (VBool true, idx + 4)
      else if literal_at s idx (lit "false") then Ret (VBool false, idx + 5)
      else
        match match_number (skipn idx s) with
        | Some (integer, frac, exp) =>
            let end_ :=
              idx + length integer + group_length frac + group_length exp in
            match frac, exp with
            | None, None => Ret (VInt (parse_int integer), end_)
            | _, _ => Ret (VFloat (parse_float integer frac exp), end_)
            end
        | None =>
            if literal_at s idx (lit "NaN") then Ret (VFloat nan, idx + 3)
            else if literal_at s idx (lit "Infinity") then
              Ret (VFloat infinity, idx + 8)
            else if literal_at s idx (lit "-Infinity") then
              Ret (VFloat neg_infinity, idx + 9)
            else Raise (StopIteration idx)
        end
    end
  end.

(** [json.loads(s)] for a [str]: one value, surrounded by optional white
    space and nothing else.  The depth given to the scanner exceeds the
    number of characters, hence the nesting of any document. *)
Definition loads (s : str) : pyresult pyval :=
  if startswith [65279%N] s then
    Raise (JSONDecodeError
             (lit "Unexpected UTF-8 BOM (decode using utf-8-sig)") s 0)
  else
    match scan_once (S (length s)) s (skip_ws s 0) with
    | Raise (StopIteration p) => Raise (expecting_value s p)
    | Raise e => Raise e
    | Ret (obj, end_) =>
        let end_ := skip_ws s end_ in
        if Nat.eqb end_ (length s) then Ret obj
        else Raise (JSONDecodeError (lit "Extra data") s end_)
    end.

End Json.

(** A double quote, for documents written out below. *)
Definition dq : str := [Json.quote].

(** [str(e)] for an exception.  A JSONDecodeError reports the line and the
    column of its position in the document. *)
Definition newline : N := 10.

Definition lineno (doc : str) (pos : nat) : nat :=
  length (filter (N.eqb newline) (firstn pos doc)) + 1.

Definition colno (doc : str) (pos : nat) : nat :=
  length (Json.take_while (fun c => negb (N.eqb c newline))
            (rev (firstn pos doc))) + 1.

Definition exn_str (e : exn) : str :=
  match e with
  | JSONDecodeError msg doc pos =>
      msg ++ lit ": line " ++ PyStr.of_nat (lineno doc pos)
          ++ lit " column " ++ PyStr.of_nat (colno doc pos)
          ++ lit " (char " ++ PyStr.of_nat pos ++ lit ")"
  | ValueError msg | OverflowError msg | ZeroDivisionError msg => msg
  | StopIteration v => PyStr.of_nat v
  | RecursionError => lit "maximum recursion depth exceeded"
  end.

(* ================================================================== *)
(** ** The result envelope of the SDK *)

Module ExecutionResult.

(** Modelled from the spec: the class [ExecutionResult] of [skill_sdk],
    which is imported by the skill and is not among its sources.  The
    fields are those of the spec's data model, and [ok] and [error] are its
    two constructors: [ok(message, data=None)] gives success, the message,
    the data and no error message; [error(error_message)] gives failure, an
    empty message, no data and the error message. *)
Record t : Type := mk {
  success : bool;
  message : str;
  data : option dict;
  error_message : option str
}.

Definition ok (message : str) (data : option dict) : t :=
  {| success := true; message := message; data := data;
     error_message := None |}.

Definition error (error_message : str) : t :=
  {| success := false; message := []; data := None;
     error_message := Some error_message |}.

(** The invariant of the envelope: success goes with no error message,
    failure with a non-empty one. *)
Definition invariant (r : t) : Prop :=
  (success r = true -> error_message r = None) /\
  (success r = false -> exists e, error_message r = Some e /\ e <> []).

(** [data[key]] of a result, when it has data and the key. *)
Definition field (r : t) (key : str) : option pyval :=
  match data r with
  | Some d => dict_get key d
  | None => None
  end.

(** [needle in r.error_message] *)
Definition error_mentions (r : t) (needle : str) : bool :=
  match error_message r with
  | Some e => contains needle e
  | None => false
  end.

End ExecutionResult.

(* ================================================================== *)
(** ** The skill *)

(** An instance after [__init__]: the resolved configuration.  The values
    come from the SDK's [get_config]; without a host override they are the
    declared defaults. *)
Record PythonExampleSkill : Type := {
  greeting_prefix : str;
  max_items : Z
}.

Definition default_skill : PythonExampleSkill :=
  {| greeting_prefix := lit "Hello"; max_items := 100 |}.

(** The number that a value is when it passes
    [isinstance(x, (int, float))]: a bool is an int, True being 1 and
    False 0. *)
Definition as_number (x : pyval) : option number :=
  match x with
  | VBool b => Some (PyInt (if b then 1 else 0))
  | VInt z => Some (PyInt z)
  | VFloat f => Some (PyFloat f)
  | _ => None
  end.

Definition isinstance_int_float (x : pyval) : bool :=
  match as_number x with
  | Some _ => true
  | None => false
  end.

(** [[float(x) for x in data if isinstance(x, (int, float))]] *)
Fixpoint float_items (data : list pyval) : pyresult (list float) :=
  match data with
  | [] => Ret []
  | x :: rest =>
      match as_number x with
      | Some n =>
          f <- to_float n ;;
          fs <- float_items rest ;;
          Ret (f :: fs)
      | None => float_items rest
      end
  end.

Section Tools.

(** Two tables of the Python runtime are parameters: the upper-case
    mapping of the characters outside ASCII, and [repr] of a float, which
    an f-string uses to format it. *)
Variable unicode_upper : N -> list N.
Variable float_repr : float -> str.

Definition number_str (x : number) : str :=
  match x with
  | PyInt z => PyStr.of_int z
  | PyFloat f => float_repr f
  end.

Variable self : PythonExampleSkill.

Definition greet (name : str) (formal : bool) : str :=
  if formal then lit "Good day, " ++ name ++ lit ". How may I assist you?"
  else greeting_prefix self ++ lit ", " ++ name ++ lit "!".

Definition echo (message : str) (uppercase reverse : bool) : str :=
  let result := message in
  let result := if uppercase then upper unicode_upper result else result in
  let result := if reverse then reversed result else result in
  result.

(** The dict [operations] of [calculate]: a lambda returns a number, or
    None for a division by zero. *)
Definition operations
    : list (str * (number -> number -> pyresult (option number))) :=
  [ (lit "add", fun x y => r <- PyNum.add x y ;; Ret (Some r));
    (lit "subtract", fun x y => r <- PyNum.sub x y ;; Ret (Some r));
    (lit "multiply", fun x y => r <- PyNum.mul x y ;; Ret (Some r));
    (lit "divide", fun x y =>
       if ne_zero y then r <- PyNum.truediv x y ;; Ret (Some r)
       else Ret None) ].

Fixpoint lookup {V} (k : str) (d : list (str * V)) : option V :=
  match d with
  | [] => None
  | (k', v) :: d' => if PyStr.eqb k k' then Some v else lookup k d'
  end.

Definition keys {V} (d : list (str * V)) : list str := map fst d.

Definition calculate (a b : number) (operation : str)
    : pyresult ExecutionResult.t :=
  match lookup operation operations with
  | None =>
      Ret (ExecutionResult.error
             (lit "Unknown operation: " ++ operation ++ lit ". Valid: "
              ++ join (lit ", ") (keys operations)))
  | Some f =>
      result <- f a b ;;
      match result with
      | None => Ret (ExecutionResult.error (lit "Division by zero"))
      | Some result =>
          Ret (ExecutionResult.ok
                 (number_str a ++ lit " " ++ operation ++ lit " "
                  ++ number_str b ++ lit " = " ++ number_str result)
                 (Some [ (lit "result", val_of_number result);
                         (lit "operation", VStr operation);
                         (lit "a", val_of_number a);
                         (lit "b", val_of_number b) ]))
      end
  end.

(** The body of the [try] block of [process_list]. *)
Definition process_list_try (items : str) : pyresult ExecutionResult.t :=
  data <- Json.loads items ;;
  match data with
  | VList data =>
      if Z.gtb (Z.of_nat (length data)) (max_items self) then
        Ret (ExecutionResult.error
               (lit "Too many items (" ++ PyStr.of_nat (length data)
                ++ lit "). Maximum: " ++ PyStr.of_int (max_items self)))
      else
        numbers <- float_items data ;;
        match numbers with
        | [] => Ret (ExecutionResult.error (lit "No valid numbers in input"))
        | _ :: _ =>
            let count := Z.of_nat (length numbers) in
            let total := PyNum.sum numbers in
            lo <- PyNum.min numbers ;;
            hi <- PyNum.max numbers ;;
            average <- PyNum.truediv (PyNum.sum numbers) (PyInt count) ;;
            let stats :=
              [ (lit "count", VInt count);
                (lit "sum", val_of_number total);
                (lit "min", VFloat lo);
                (lit "max", VFloat hi);
                (lit "average", val_of_number average) ] in
            Ret (ExecutionResult.ok
                   (lit "Processed " ++ PyStr.of_nat (length numbers)
                    ++ lit " items")
                   (Some stats))
        end
  | _ => Ret (ExecutionResult.error (lit "Input must be a JSON array"))
  end.

(** [process_list]: the [try] block under its two handlers.  The first
    takes a JSONDecodeError, the second any other ValueError; everything
    else propagates. *)
Definition process_list (items : str) : pyresult ExecutionResult.t :=
  match process_list_try items with
  | Raise (JSONDecodeError _ _ _ as e) =>
      Ret (ExecutionResult.error (lit "Invalid JSON: " ++ exn_str e))
  | Raise (ValueError _ as e) =>
      Ret (ExecutionResult.error (lit "Invalid number: " ++ exn_str e))
  | r => r
  end.

Definition status : pyval :=
  VDict
    [ (lit "skill_name", VStr (lit "python-example"));
      (lit "version", VStr (lit "1.0.0"));
      (lit "config",
       VDict [ (lit "greeting_prefix", VStr (greeting_prefix self));
               (lit "max_items", VInt (max_items self)) ]);
      (lit "tools_available",
       VList [ VStr (lit "greet"); VStr (lit "echo");
               VStr (lit "calculate"); VStr (lit "process_list");
               VStr (lit "status") ]) ].

End Tools.

(* ================================================================== *)
(** ** Tool calls on an instance *)

(** A call of one of the five tools, and what it returns.  A method
    receives the instance and hands it back: none of the tools assigns to
    an attribute of [self]. *)
Inductive tool_call : Type :=
| Greet (name : str) (formal : bool)
| Echo (message : str) (uppercase reverse : bool)
| Calculate (a b : number) (operation : str)
| ProcessList (items : str)
| Status.

Inductive tool_value : Type :=
| TextValue (s : str)
| ResultValue (r : ExecutionResult.t)
| DictValue (d : pyval).

Section Calls.

Variable unicode_upper : N -> list N.
Variable float_repr : float -> str.

Definition call_tool (self : PythonExampleSkill) (c : tool_call)
    : PythonExampleSkill * pyresult tool_value :=
  match c with
  | Greet name formal => (self, Ret (TextValue (greet self name formal)))
  | Echo message uppercase reverse =>
      (self, Ret (TextValue (echo unicode_upper message uppercase reverse)))
  | Calculate a b operation =>
      (self, r <- calculate float_repr a b operation ;; Ret (ResultValue r))
  | ProcessList items =>
      (self, r <- process_list self items ;; Ret (ResultValue r))
  | Status => (self, Ret (DictValue (status self)))
  end.

(** A sequence of calls, one after the other, on the instance the
    previous call left. *)
Fixpoint call_tools (self : PythonExampleSkill) (cs : list tool_call)
    : PythonExampleSkill * list (pyresult tool_value) :=
  match cs with
  | [] => (self, [])
  | c :: cs' =>
      let '(self1, r) := call_tool self c in
      let '(self2, rs) := call_tools self1 cs' in
      (self2, r :: rs)
  end.

End Calls.

(* ================================================================== *)
(** ** What the specification says about [calculate] *)

(** The four operations by name, and the result of applying one to two
    numbers with Python's operators. *)
Inductive operation : Type := Add | Subtract | Multiply | Divide.

Definition operation_name (op : operation) : str :=
  match op with
  | Add => lit "add"
  | Subtract => lit "subtract"
  | Multiply => lit "multiply"
  | Divide => lit "divide"
  end.

Definition valid_operations : list str :=
  map operation_name [Add; Subtract; Multiply; Divide].

Definition arithmetic (op : operation) (a b : number) : pyresult number :=
  match op with
  | Add => PyNum.add a b
  | Subtract => PyNum.sub a b
  | Multiply => PyNum.mul a b
  | Divide => PyNum.truediv a b
  end.


Import ExecutionResult.

(** What [calculate] returns on a valid operation whose arithmetic gives
    [r]. *)
Definition calculate_result (float_repr : float -> str) (op : operation)
    (a b r : number) : ExecutionResult.t :=
  ok (number_str float_repr a ++ lit " " ++ operation_name op ++ lit " "
      ++ number_str float_repr b ++ lit " = " ++ number_str float_repr r)
     (Some [ (lit "result", val_of_number r);
             (lit "operation", VStr (operation_name op));
             (lit "a", val_of_number a);
             (lit "b", val_of_number b) ]).

(* ================================================================== *)
(** ** What the specification says about [process_list] *)

(** [r.data[key] == x], as a test compares a statistic with a literal. *)
Definition field_equals (r : ExecutionResult.t) (key : str) (x : number)
    : bool :=
  match field r key with
  | Some v => val_num_eqb v x
  | None => false
  end.

(** The float an entry of the array contributes to the statistics. *)
Definition entry_float (x : pyval) (f : float) : Prop :=
  exists n, as_number x = Some n /\ to_float n = Ret f.

Definition bool_float (b : bool) : float := if b then 1%float else 0%float.

(** Every int entry of the array is within the range of a float. *)
Definition ints_in_float_range (data : list pyval) : Prop :=
  forall z, In (VInt z) data -> returns (float_of_int z) = true.

(** A result built by one of the two constructors of the envelope. *)
Definition built_by_constructor (r : ExecutionResult.t) : Prop :=
  (exists m d, r = ok m d) \/ (exists e, r = error e).




(* ================================================================== *)
(** ** Outcomes of the scanner *)

(** The outcome of a scanning step that started at [idx]: it stops after
    [idx] and within the document, or it raises a decoding error about this
    document, or it signals that no value starts there. *)
Definition progress {A} (s : str) (idx : nat) (r : pyresult (A * nat))
    : Prop :=
  match r with
  | Ret (_, e) => idx < e <= length s
  | Raise (JSONDecodeError _ d _) => d = s
  | Raise (StopIteration _) => True
  | Raise _ => False
  end.

Definition string_progress (s : str) (lo hi : nat)
    (r : pyresult (str * nat)) : Prop :=
  match r with
  | Ret (_, e) => lo < e <= hi
  | Raise (JSONDecodeError _ d _) => d = s
  | Raise _ => False
  end.

(** A container never lets StopIteration through. *)
Definition container_progress (s : str) (idx : nat)
    (r : pyresult (pyval * nat)) : Prop :=
  match r with
  | Ret (_, e) => idx < e <= length s
  | Raise (JSONDecodeError _ d _) => d = s
  | Raise _ => False
  end.

(* ================================================================== *)
(** ** Notions for the further properties *)

(** A message of ASCII characters only. *)
Definition is_ascii (m : str) : Prop := Forall (fun c => (c < 128)%N) m.

Definition is_ascii_lower (c : N) : bool := N.leb 97 c && N.leb c 122.

(** A number that a JSON document carries without loss: any float, or an
    int below 2^53 in absolute value. *)
Definition safe_number (x : number) : Prop :=
  match x with
  | PyInt z => (Z.abs z < 2 ^ 53)%Z
  | PyFloat _ => True
  end.

(** The name of the method behind a tool call. *)
Definition tool_name (c : tool_call) : str :=
  match c with
  | Greet _ _ => lit "greet"
  | Echo _ _ _ => lit "echo"
  | Calculate _ _ _ => lit "calculate"
  | ProcessList _ => lit "process_list"
  | Status => lit "status"
  end.

(** [v[key]] for a value that is a dict. *)
Definition item (v : pyval) (key : str) : option pyval :=
  match v with
  | VDict d => dict_get key d
  | _ => None
  end.

(** [status()["config"][key]] and [status()["tools_available"]]. *)
Definition status_config (self : PythonExampleSkill) (key : str)
    : option pyval :=
  match item (status self) (lit "config") with
  | Some config => item config key
  | None => None
  end.

Definition tools_available (self : PythonExampleSkill) : list pyval :=
  match item (status self) (lit "tools_available") with
  | Some (VList names) => names
  | _ => []
  end.

(** The statistics of a successful [process_list] result, as floats. *)
Definition float_field (r : ExecutionResult.t) (key : str) : option float :=
  match field r key with
  | Some (VFloat f) => Some f
  | _ => None
  end.

(* ================================================================== *)
(** * Properties *)

(* ================================================================== *)
(** ** Facts about strings *)

Module PyStrFacts.

Import PyStr.

Lemma eqb_refl s : eqb s s = true.
Proof.
  induction s as [|c s IH]; simpl; [reflexivity|].
  now rewrite N.eqb_refl, IH.
Qed.

Lemma eqb_eq s t : eqb s t = true <-> s = t.
Proof.
  split.
  - revert t; induction s as [|c s IH]; intros [|d t]; simpl;
      try discriminate; [reflexivity|].
    intros H. apply andb_true_iff in H as [Hc Hs].
    apply N.eqb_eq in Hc. now rewrite Hc, (IH _ Hs).
  - intros ->. apply eqb_refl.
Qed.

Lemma startswith_app p s : startswith p (p ++ s) = true.
Proof.
  induction p as [|c p IH]; simpl; [reflexivity|].
  now rewrite N.eqb_refl, IH.
Qed.

Lemma contains_here p s : contains p (p ++ s) = true.
Proof.
  destruct (p ++ s) eqn:E; simpl.
  - destruct p; [reflexivity|discriminate].
  - rewrite <- E, startswith_app. reflexivity.
Qed.

Lemma contains_app_r p a b : contains p b = true -> contains p (a ++ b) = true.
Proof.
  intros H. induction a as [|c a IH]; simpl; [exact H|].
  rewrite IH. apply orb_true_r.
Qed.

End PyStrFacts.

(* ================================================================== *)
(** ** Small ints as floats *)

Module PyNumFacts.

Lemma digits2_pos_shift (p k : positive) :
  digits2_pos (Pos.iter xO p k) = (digits2_pos p + k)%positive.
Proof.
  induction k as [|k IH] using Pos.peano_ind.
  - simpl. lia.
  - rewrite Pos.iter_succ. simpl. rewrite IH. lia.
Qed.

(** An int below 2^53 in absolute value is a float as it stands. *)
Lemma normalize_small (s : bool) (p : positive) :
  (Z.pos (digits2_pos p) <= 53)%Z ->
  exists m e,
    binary_round prec emax s p 0 = S754_finite s m e /\
    valid_binary prec emax (S754_finite s m e) = true.
Proof.
  intros Hd. unfold binary_round.
  set (d := digits2_pos p) in *.
  assert (Hf : fexp prec emax (Z.pos d + 0) = (Z.pos d - 53)%Z).
  { unfold fexp, emin, prec, emax. lia. }
  rewrite Hf. unfold shl_align.
  assert (exists mz ez,
            (match (Z.pos d - 53 - 0)%Z with
             | Z.neg k => (Pos.iter xO p k, (Z.pos d - 53)%Z)
             | _ => (p, 0%Z)
             end) = (mz, ez) /\ Z.pos (digits2_pos mz) = 53%Z /\
            ez = (Z.pos d - 53)%Z) as (mz & ez & -> & Hmz & Hez).
  { destruct (Z.pos d - 53 - 0)%Z as [|k|k] eqn:E.
    - exists p, 0%Z. repeat split; fold d; lia.
    - lia.
    - exists (Pos.iter xO p k), (Z.pos d - 53)%Z. repeat split.
      rewrite digits2_pos_shift. fold d. lia. }
  exists mz, ez.
  assert (Hfe : fexp prec emax (Z.pos (digits2_pos mz) + ez) = ez).
  { rewrite Hmz. unfold fexp, emin, prec, emax. lia. }
  unfold binary_round_aux, shr_fexp.
  cbn [Zdigits2 shr_record_of_loc]. rewrite Hfe, Z.sub_diag.
  cbn [shr shr_m loc_of_shr_record round_nearest_even shr_r shr_s].
  cbn [Zdigits2 shr_record_of_loc]. rewrite Hfe, Z.sub_diag.
  cbn [shr shr_m].
  assert (Hle : Z.leb ez (emax - prec) = true)
    by (apply Z.leb_le; unfold emax, prec; lia).
  rewrite Hle. split; [reflexivity|].
  unfold valid_binary, bounded, canonical_mantissa.
  rewrite Hfe, Z.eqb_refl, Hle. reflexivity.
Qed.

Lemma digits2_pos_bound (p : positive) :
  (2 ^ Z.pos (digits2_pos p) <= 2 * Z.pos p)%Z.
Proof.
  induction p as [p IH|p IH|]; cbn [digits2_pos].
  - rewrite Pos2Z.inj_succ, Z.pow_succ_r by lia. lia.
  - rewrite Pos2Z.inj_succ, Z.pow_succ_r by lia. lia.
  - simpl. lia.
Qed.

Lemma digits2_pos_small (p : positive) :
  (Z.pos p < 2 ^ 53)%Z -> (Z.pos (digits2_pos p) <= 53)%Z.
Proof.
  intros H. pose proof (digits2_pos_bound p) as B.
  destruct (Z_le_gt_dec (Z.pos (digits2_pos p)) 53) as [L|G]; [exact L|].
  assert (2 ^ 54 <= 2 ^ Z.pos (digits2_pos p))%Z
    by (apply Z.pow_le_mono_r; lia).
  change (2 ^ 54)%Z with (2 * 2 ^ 53)%Z in *. lia.
Qed.

Lemma Prim2SF_zero : Prim2SF 0%float = S754_zero false.
Proof. vm_compute. reflexivity. Qed.

Lemma float_of_int_small (z : Z) :
  (Z.abs z < 2 ^ 53)%Z ->
  exists f, float_of_int z = Ret f /\
            (z <> 0%Z -> PrimFloat.eqb f 0%float = false).
Proof.
  intros Hz. unfold float_of_int.
  destruct z as [|p|p]; cbn [binary_normalize].
  - eexists. split; [reflexivity|]. intros H; contradiction.
  - destruct (normalize_small false p) as (m & e & -> & V).
    { apply digits2_pos_small. exact Hz. }
    eexists. split; [reflexivity|]. intros _.
    rewrite FloatAxioms.eqb_spec, (FloatAxioms.Prim2SF_SF2Prim _ V),
      Prim2SF_zero.
    reflexivity.
  - destruct (normalize_small true p) as (m & e & -> & V).
    { apply digits2_pos_small. exact Hz. }
    eexists. split; [reflexivity|]. intros _.
    rewrite FloatAxioms.eqb_spec, (FloatAxioms.Prim2SF_SF2Prim _ V),
      Prim2SF_zero.
    reflexivity.
Qed.

End PyNumFacts.

(* ================================================================== *)
(** ** The scanner always finishes *)

Module JsonFacts.

Import Json.

Lemma take_while_length p l : length (take_while p l) <= length l.
Proof.
  induction l as [|c l IH]; simpl; [lia|].
  destruct (p c); simpl; lia.
Qed.

Lemma skip_ws_bounds s idx :
  Nat.min idx (length s) <= skip_ws s idx <= length s.
Proof.
  unfold skip_ws.
  pose proof (take_while_length is_ws (skipn (Nat.min idx (length s)) s)) as H.
  rewrite length_skipn in H. lia.
Qed.

Lemma string_progress_weaken s lo hi lo' hi' r :
  string_progress s lo' hi' r -> lo <= lo' -> hi' <= hi ->
  string_progress s lo hi r.
Proof.
  unfold string_progress. destruct r as [[v e]|[]]; auto. lia.
Qed.

Lemma scanstring_loop_progress s begin :
  forall n r, length r <= n ->
  forall end_ chunks,
    string_progress s end_ (end_ + length r)
      (scanstring_loop s begin r end_ chunks).
Proof.
  induction n as [|n IH]; intros r Hn end_ chunks.
  - destruct r; [|simpl in Hn; lia]. simpl. reflexivity.
  - destruct r as [|c r1]; [simpl; reflexivity|].
    assert (Rec : forall r' end' chunks',
               length r' <= n -> end_ < end' ->
               end' + length r' <= end_ + length (c :: r1) ->
               string_progress s end_ (end_ + length (c :: r1))
                 (scanstring_loop s begin r' end' chunks')).
    { intros r' end' chunks' H1 H2 H3.
      eapply string_progress_weaken; [apply IH; exact H1| lia | lia]. }
    cbn [scanstring_loop].
    repeat match goal with
    | |- string_progress _ _ _ (if ?b then _ else _) => destruct b
    | |- string_progress _ _ _ (match ?x with _ => _ end) => destruct x
    end;
    try (cbn [string_progress bad_escape unterminated]; simpl length;
         first [reflexivity | lia]);
    apply Rec; simpl in *; lia.
Qed.

Lemma scanstring_progress s end_ :
  end_ <= length s ->
  string_progress s end_ (length s) (scanstring s end_).
Proof.
  intros H. unfold scanstring.
  eapply string_progress_weaken;
    [apply (scanstring_loop_progress s (end_ - 1) (length (skipn end_ s)));
     lia | lia |].
  rewrite length_skipn. lia.
Qed.

Lemma take_while_skipn p l :
  length (take_while p l) + length (skipn (length (take_while p l)) l)
  = length l.
Proof.
  pose proof (take_while_length p l). rewrite length_skipn. lia.
Qed.

Lemma match_integer_length r integer r1 :
  match_integer r = Some (integer, r1) ->
  0 < length integer /\ length integer + length r1 = length r.
Proof.
  unfold match_integer.
  destruct r as [|c r']; [discriminate|].
  destruct (N.eqb c (cp "-")).
  - destruct r' as [|d r2]; [discriminate|].
    destruct (N.eqb d (cp "0")).
    + intros H; injection H as <- <-. simpl. lia.
    + destruct (is_digit d); [|discriminate].
      intros H; injection H as <- <-.
      pose proof (take_while_skipn is_digit r2). simpl. lia.
  - destruct (N.eqb c (cp "0")).
    + intros H; injection H as <- <-. simpl. lia.
    + destruct (is_digit c); [|discriminate].
      intros H; injection H as <- <-.
      pose proof (take_while_skipn is_digit r'). simpl. lia.
Qed.

Lemma match_frac_length r frac r1 :
  match_frac r = (frac, r1) -> group_length frac + length r1 = length r.
Proof.
  unfold match_frac. destruct r as [|c r'].
  - intros H; injection H as <- <-. reflexivity.
  - destruct (_ && _).
    + intros H; injection H as <- <-.
      pose proof (take_while_skipn is_digit r'). simpl. lia.
    + intros H; injection H as <- <-. reflexivity.
Qed.

Lemma match_exp_length r exp r1 :
  match_exp r = (exp, r1) -> group_length exp + length r1 = length r.
Proof.
  unfold match_exp. destruct r as [|c r'].
  - intros H; injection H as <- <-. reflexivity.
  - destruct (_ || _); [|intros H; injection H as <- <-; reflexivity].
    destruct r' as [|x r2].
    + simpl. intros H; injection H as <- <-. reflexivity.
    + destruct (N.eqb x (cp "-") || N.eqb x (cp "+")).
      * destruct (Nat.eqb _ 0); intros H; injection H as <- <-;
          [reflexivity|].
        pose proof (take_while_skipn is_digit r2).
        simpl in *. lia.
      * destruct (Nat.eqb _ 0); intros H; injection H as <- <-;
          [reflexivity|].
        pose proof (take_while_skipn is_digit r2) as T.
        cbn [group_length app length take_while].
        destruct (is_digit x); simpl; lia.
Qed.

Lemma match_number_length r integer frac exp :
  match_number r = Some (integer, frac, exp) ->
  0 < length integer /\
  length integer + group_length frac + group_length exp <= length r.
Proof.
  unfold match_number.
  destruct (match_integer r) as [[i r1]|] eqn:Hi; [|discriminate].
  destruct (match_frac r1) as [f r2] eqn:Hf.
  destruct (match_exp r2) as [e r3] eqn:He.
  intros H; injection H as <- <- <-.
  apply match_integer_length in Hi. apply match_frac_length in Hf.
  apply match_exp_length in He. lia.
Qed.

Lemma literal_at_length s idx word :
  literal_at s idx word = true -> idx < length s ->
  idx + length word <= length s.
Proof.
  unfold literal_at, slice. intros H Hidx.
  apply PyStrFacts.eqb_eq in H.
  apply (f_equal (@length N)) in H.
  rewrite length_firstn, length_skipn in H. lia.
Qed.

Lemma is_char_some c s idx :
  is_char c (nth_error s idx) = true -> idx < length s.
Proof.
  destruct (nth_error s idx) eqn:E; [|discriminate].
  intros _. apply nth_error_Some. congruence.
Qed.

Section ContainerProgress.

Variable scan : str -> nat -> pyresult (pyval * nat).
Variable s : str.
Variable lo : nat.
Hypothesis scan_progress :
  forall idx, lo <= idx -> progress s idx (scan s idx).

Lemma scan_value_progress idx :
  lo <= idx -> container_progress s idx (scan_value scan s idx).
Proof.
  intros H. unfold scan_value. pose proof (scan_progress idx H) as P.
  destruct (scan s idx) as [[v e]|[]]; simpl in *; auto.
Qed.

Lemma array_loop_progress :
  forall n end_ values,
    lo <= end_ -> length s - end_ < n ->
    container_progress s end_ (array_loop scan n s end_ values).
Proof.
  induction n as [|n IH]; intros end_ values Hlo Hn; [lia|].
  cbn [array_loop].
  pose proof (scan_value_progress end_ Hlo) as P.
  destruct (scan_value scan s end_) as [[v e]|ex]; [|exact P].
  cbn [bind]. simpl in P.
  pose proof (skip_ws_bounds s e) as B.
  destruct (is_char (cp "]") (nth_error s (skip_ws s e))) eqn:E1.
  - apply is_char_some in E1. simpl. lia.
  - destruct (is_char (cp ",") (nth_error s (skip_ws s e))) eqn:E2;
      [|reflexivity].
    apply is_char_some in E2. cbn [negb].
    pose proof (skip_ws_bounds s (skip_ws s e + 1)) as B2.
    assert (P2 : container_progress s (skip_ws s (skip_ws s e + 1))
                   (array_loop scan n s (skip_ws s (skip_ws s e + 1))
                      (values ++ [v])))
      by (apply IH; lia).
    destruct (array_loop scan n s _ _) as [[v' e']|[]]; simpl in *; auto.
    lia.
Qed.

Lemma JSONArray_progress end_ :
  lo <= end_ -> end_ <= length s ->
  container_progress s end_ (JSONArray scan s end_).
Proof.
  intros Hlo Hlen. unfold JSONArray.
  pose proof (skip_ws_bounds s end_) as B.
  destruct (is_char (cp "]") (nth_error s (skip_ws s end_))) eqn:E1.
  - apply is_char_some in E1. simpl. lia.
  - assert (P : container_progress s (skip_ws s end_)
                  (array_loop scan (S (length s)) s (skip_ws s end_) []))
      by (apply array_loop_progress; lia).
    destruct (array_loop scan _ s _ _) as [[v' e']|[]]; simpl in *; auto.
    lia.
Qed.

Lemma object_loop_progress :
  forall n end_ pairs,
    lo <= end_ -> end_ <= length s -> length s - end_ < n ->
    container_progress s end_ (object_loop scan n s end_ pairs).
Proof.
  induction n as [|n IH]; intros end_ pairs Hlo Hlen Hn; [lia|].
  cbn [object_loop].
  pose proof (scanstring_progress s end_ Hlen) as P.
  destruct (scanstring s end_) as [[key e]|ex];
    [|destruct ex; simpl in *; auto].
  cbn [bind]. simpl in P.
  pose proof (skip_ws_bounds s e) as B.
  destruct (is_char (cp ":") (nth_error s (skip_ws s e))) eqn:E0;
    [|reflexivity].
  apply is_char_some in E0. cbn [negb].
  pose proof (skip_ws_bounds s (skip_ws s e + 1)) as B1.
  pose proof (scan_value_progress (skip_ws s (skip_ws s e + 1))) as Pv.
  destruct (scan_value scan s _) as [[v e1]|ex]; [|apply Pv; lia].
  cbn [bind]. simpl in Pv. specialize (Pv ltac:(lia)).
  pose proof (skip_ws_bounds s e1) as B2.
  destruct (is_char (cp "}") (nth_error s (skip_ws s e1))) eqn:E1.
  - apply is_char_some in E1. simpl. lia.
  - destruct (is_char (cp ",") (nth_error s (skip_ws s e1))) eqn:E2;
      [|reflexivity].
    apply is_char_some in E2. cbn [negb].
    pose proof (skip_ws_bounds s (skip_ws s e1 + 1)) as B3.
    cbv zeta.
    destruct (is_char quote (nth_error s (skip_ws s (skip_ws s e1 + 1))))
      eqn:E3; [|reflexivity].
    apply is_char_some in E3. cbn [negb].
    assert (P2 : container_progress s (skip_ws s (skip_ws s e1 + 1) + 1)
                   (object_loop scan n s (skip_ws s (skip_ws s e1 + 1) + 1)
                      (pairs ++ [(key, v)])))
      by (apply IH; lia).
    destruct (object_loop scan n s _ _) as [[v' e']|[]]; simpl in *; auto.
    lia.
Qed.

Lemma JSONObject_progress end_ :
  lo <= end_ -> end_ <= length s ->
  container_progress s end_ (JSONObject scan s end_).
Proof.
  intros Hlo Hlen. unfold JSONObject.
  pose proof (skip_ws_bounds s end_) as B. cbv zeta.
  destruct (is_char (cp "}") (nth_error s (skip_ws s end_))) eqn:E1.
  - apply is_char_some in E1. simpl. lia.
  - destruct (is_char quote (nth_error s (skip_ws s end_))) eqn:E2;
      [|reflexivity].
    apply is_char_some in E2. cbn [negb].
    assert (P : container_progress s (skip_ws s end_ + 1)
                  (object_loop scan (S (length s)) s (skip_ws s end_ + 1) []))
      by (apply object_loop_progress; lia).
    destruct (object_loop scan _ s _ _) as [[v' e']|[]]; simpl in *; auto.
    lia.
Qed.

End ContainerProgress.

Lemma container_progress_progress s idx idx' r :
  container_progress s idx' r -> idx <= idx' -> progress s idx r.
Proof.
  unfold container_progress, progress. destruct r as [[v e]|[]]; auto. lia.
Qed.

(** The scanner never runs out of depth when it has more than the number
    of characters left. *)
Lemma scan_once_progress :
  forall depth s idx,
    length s - idx < depth -> progress s idx (scan_once depth s idx).
Proof.
  induction depth as [|depth IH]; intros s idx Hd; [lia|].
  cbn [scan_once].
  destruct (nth_error s idx) as [nextchar|] eqn:Hc; [|exact I].
  assert (Hidx : idx < length s) by (apply nth_error_Some; congruence).
  assert (Hrec : forall i, idx + 1 <= i -> progress s i (scan_once depth s i))
    by (intros i Hi; apply IH; lia).
  destruct (N.eqb nextchar quote).
  { pose proof (scanstring_progress s (idx + 1) ltac:(lia)) as P.
    destruct (scanstring s (idx + 1)) as [[v e]|[]]; simpl in *; auto. lia. }
  destruct (N.eqb nextchar (cp "{")).
  { eapply container_progress_progress;
      [apply (JSONObject_progress _ s (idx + 1) Hrec); lia | lia]. }
  destruct (N.eqb nextchar (cp "[")).
  { eapply container_progress_progress;
      [apply (JSONArray_progress _ s (idx + 1) Hrec); lia | lia]. }
  repeat match goal with
  | |- progress _ _ (if literal_at s idx ?w then _ else _) =>
      let E := fresh "E" in
      destruct (literal_at s idx w) eqn:E;
      [ apply literal_at_length in E; [|exact Hidx];
        simpl in E |- *; lia | clear E ]
  end.
  destruct (match_number (skipn idx s)) as [[[integer frac] exp]|] eqn:Hm.
  - apply match_number_length in Hm. rewrite length_skipn in Hm.
    destruct frac, exp; simpl in *; lia.
  - repeat match goal with
    | |- progress _ _ (if literal_at s idx ?w then _ else _) =>
        let E := fresh "E" in
        destruct (literal_at s idx w) eqn:E;
        [ apply literal_at_length in E; [|exact Hidx];
          simpl in E |- *; lia | clear E ]
    end.
    exact I.
Qed.

(** [loads] returns a value or raises a JSONDecodeError about its
    document: the bounds it gives the scanner are never reached. *)
Lemma loads_outcome (s : str) :
  (exists v, loads s = Ret v) \/
  (exists msg pos, loads s = Raise (JSONDecodeError msg s pos)).
Proof.
  unfold loads.
  destruct (startswith _ s); [right; eauto|].
  pose proof (scan_once_progress (S (length s)) s (skip_ws s 0) ltac:(lia))
    as P.
  destruct (scan_once _ s _) as [[v e]|[]]; simpl in P; try contradiction.
  - destruct (Nat.eqb _ _); [left|right]; eauto.
  - subst. right; eauto.
  - right. unfold expecting_value. eauto.
Qed.

End JsonFacts.


(* ================================================================== *)
(** ** The embedding on concrete inputs *)

(** Numbers. *)
Example float_of_int_5 : float_of_int 5 = Ret 5%float.
Proof. vm_compute. reflexivity. Qed.

Example float_of_int_rounds_to_even :
  float_of_int (2 ^ 53 + 1) = Ret 9007199254740992%float.
Proof. vm_compute. reflexivity. Qed.

Example float_of_int_too_large : returns (float_of_int (2 ^ 1024)) = false.
Proof. vm_compute. reflexivity. Qed.

Example truediv_20_4 : truediv (PyInt 20) (PyInt 4) = Ret (PyFloat 5%float).
Proof. vm_compute. reflexivity. Qed.

Example truediv_1_3 :
  truediv (PyInt 1) (PyInt 3) = Ret (PyFloat 0.33333333333333331%float).
Proof. vm_compute. reflexivity. Qed.

Example truediv_negative_zero :
  truediv (PyInt 0) (PyInt (-5)) = Ret (PyFloat (-0)%float).
Proof. vm_compute. reflexivity. Qed.

Example truediv_huge : returns (truediv (PyInt (2 ^ 1024)) (PyInt 1)) = false.
Proof. vm_compute. reflexivity. Qed.

Example add_mixed :
  PyNum.add (PyInt 1) (PyFloat 0.5) = Ret (PyFloat 1.5%float).
Proof. vm_compute. reflexivity. Qed.

Example add_mixed_too_large :
  returns (PyNum.add (PyInt (2 ^ 1024)) (PyFloat 0.5)) = false.
Proof. vm_compute. reflexivity. Qed.

Example eqb_5 : PyNum.eqb (PyFloat 5%float) (PyInt 5) = true.
Proof. vm_compute. reflexivity. Qed.

Example of_int_neg : of_int (-120) = lit "-120".
Proof. vm_compute. reflexivity. Qed.

Example of_int_0 : of_int 0 = lit "0".
Proof. vm_compute. reflexivity. Qed.

(** The decoder. *)
Example loads_values :
  Json.loads (lit "[1, 2.5, true, null, [], {}, -0.0, 1e2, -7]")
  = Ret (VList [VInt 1; VFloat 2.5; VBool true; VNone; VList []; VDict [];
                VFloat (-0)%float; VFloat 100; VInt (-7)]).
Proof. vm_compute. reflexivity. Qed.

Example loads_not_json :
  option_map exn_str
    (match Json.loads (lit "not valid json") with
     | Raise e => Some e | Ret _ => None end)
  = Some (lit "Expecting value: line 1 column 1 (char 0)").
Proof. vm_compute. reflexivity. Qed.

Example loads_unclosed :
  option_map exn_str
    (match Json.loads (lit "[1, 2") with
     | Raise e => Some e | Ret _ => None end)
  = Some (lit "Expecting ',' delimiter: line 1 column 6 (char 5)").
Proof. vm_compute. reflexivity. Qed.

Example loads_object :
  Json.loads (lit "{" ++ dq ++ lit "key" ++ dq ++ lit ": " ++ dq
              ++ lit "val\u00e9" ++ dq ++ lit "}")
  = Ret (VDict [(lit "key", VStr (lit "val" ++ [233%N]))]).
Proof. vm_compute. reflexivity. Qed.

Example loads_leading_zero :
  Json.loads (lit "[0.1, 1e400, 5e-324, 123456789012345678901234567890, 01]")
  = Raise (Json.expecting_comma
      (lit "[0.1, 1e400, 5e-324, 123456789012345678901234567890, 01]") 54).
Proof. vm_compute. reflexivity. Qed.

Example loads_floats :
  Json.loads (lit " [0.1, 1e400, 5e-324, 123456789012345678901234567890, NaN] ")
  = Ret (VList [VFloat 0.1; VFloat infinity; VFloat 5e-324;
                VInt 123456789012345678901234567890; VFloat nan]).
Proof. vm_compute. reflexivity. Qed.

(** The cases of the repository's test suite. *)
Example test_greet_default :
  greet default_skill (lit "World") false = lit "Hello, World!".
Proof. reflexivity. Qed.

Example test_greet_formal :
  greet default_skill (lit "CEO") true
  = lit "Good day, CEO. How may I assist you?".
Proof. reflexivity. Qed.

Example test_echo_basic :
  echo (fun c => [c]) (lit "Hello World") false false = lit "Hello World".
Proof. reflexivity. Qed.

Example test_echo_uppercase :
  echo (fun c => [c]) (lit "hello") true false = lit "HELLO".
Proof. reflexivity. Qed.

Example test_echo_reverse :
  echo (fun c => [c]) (lit "stressed") false true = lit "desserts".
Proof. reflexivity. Qed.

Example test_calculate_divide :
  exists res,
    calculate (fun _ => lit "?") (PyInt 20) (PyInt 4) (lit "divide")
    = Ret res /\
    success res = true /\
    field_equals res (lit "result") (PyInt 5) = true.
Proof. eexists. split; [vm_compute; reflexivity|]. split; reflexivity. Qed.

Example test_calculate_floats :
  exists res,
    calculate (fun _ => lit "?") (PyFloat 0.1) (PyFloat 0.2) (lit "add")
    = Ret res /\
    field res (lit "result") = Some (VFloat 0.30000000000000004).
Proof. eexists. split; [vm_compute; reflexivity|]. reflexivity. Qed.

Example test_process_list_valid :
  exists res,
    process_list default_skill (lit "[1, 2, 3, 4, 5]") = Ret res /\
    success res = true /\
    field_equals res (lit "count") (PyInt 5) = true /\
    field_equals res (lit "sum") (PyInt 15) = true /\
    field_equals res (lit "min") (PyInt 1) = true /\
    field_equals res (lit "max") (PyInt 5) = true /\
    field_equals res (lit "average") (PyFloat 3) = true.
Proof.
  eexists. split; [vm_compute; reflexivity|].
  repeat split; vm_compute; reflexivity.
Qed.

Example test_process_list_invalid_json :
  process_list default_skill (lit "not valid json")
  = Ret (error (lit "Invalid JSON: Expecting value: line 1 column 1 (char 0)")).
Proof. vm_compute. reflexivity. Qed.

Example test_process_list_not_array :
  process_list default_skill
    (lit "{" ++ dq ++ lit "key" ++ dq ++ lit ": " ++ dq ++ lit "value" ++ dq
     ++ lit "}")
  = Ret (error (lit "Input must be a JSON array")).
Proof. vm_compute. reflexivity. Qed.

Example test_process_list_empty_numbers :
  process_list default_skill
    (lit "[" ++ dq ++ lit "a" ++ dq ++ lit ", " ++ dq ++ lit "b" ++ dq
     ++ lit ", " ++ dq ++ lit "c" ++ dq ++ lit "]")
  = Ret (error (lit "No valid numbers in input")).
Proof. vm_compute. reflexivity. Qed.

Example process_list_int_too_large :
  process_list default_skill (lit "[1" ++ repeat (cp "0") 400 ++ lit "]")
  = Raise (OverflowError (lit "int too large to convert to float")).
Proof. vm_compute. reflexivity. Qed.

Example test_status :
  dict_get (lit "skill_name")
    (match status default_skill with VDict d => d | _ => [] end)
  = Some (VStr (lit "python-example")).
Proof. reflexivity. Qed.

(* ================================================================== *)
(** ** Properties of [echo] *)

(** C6: with both flags set, echo upper-cases first and reverses second,
    whatever the message; on "hello" the result is "OLLEH". *)
Theorem echo_uppercase_then_reverse :
  (forall unicode_upper message,
     echo unicode_upper message true true
     = reversed (upper unicode_upper message)) /\
  (forall unicode_upper,
     echo unicode_upper (lit "hello") true true = lit "OLLEH").
Proof.
  split; intros; reflexivity.
Qed.

(** The order of the two steps can be observed: U+0149 upper-cases to the
    two characters U+02BC U+004E, and reversing before or after gives
    different strings. *)
Example echo_order_matters :
  let unicode_upper := fun c => if N.eqb c 329 then [700; 78]%N else [c] in
  echo unicode_upper [97; 329]%N true true = [78; 700; 65]%N /\
  upper unicode_upper (reversed [97; 329]%N) = [700; 78; 65]%N.
Proof. split; reflexivity. Qed.

(** C10: with both flags off, echo returns its message unchanged. *)
Theorem echo_plain_identity :
  forall unicode_upper message,
    echo unicode_upper message false false = message.
Proof.
  intros. unfold echo. reflexivity.
Qed.

(* ================================================================== *)
(** ** Properties of [calculate] *)

Lemma lookup_operation_name (op : operation) :
  exists f, lookup (operation_name op) operations = Some f /\
    forall a b,
      f a b =
      if (match op with Divide => negb (ne_zero b) | _ => false end)
      then Ret None
      else r <- arithmetic op a b ;; Ret (Some r).
Proof.
  destruct op; eexists; (split; [reflexivity|]);
    intros a b; cbn beta; try reflexivity.
  destruct (ne_zero b); reflexivity.
Qed.

Lemma lookup_unknown (op : str) :
  ~ In op valid_operations -> lookup op operations = None.
Proof.
  intros H. unfold lookup, operations.
  repeat match goal with
  | |- context [PyStr.eqb op ?k] =>
      destruct (PyStr.eqb op k) eqn:E;
      [ apply PyStrFacts.eqb_eq in E; exfalso; apply H; subst op;
        unfold valid_operations; simpl; tauto
      | clear E ]
  end.
  reflexivity.
Qed.







(** C4: a divisor equal to zero (the int 0, or the float 0.0 or -0.0)
    makes divide return the failure "Division by zero"; the lambda answers
    None without dividing, so nothing is raised. *)
Theorem calculate_divide_by_zero :
  forall (float_repr : float -> str) (a b : number),
    is_zero b = true ->
    exists res : ExecutionResult.t,
      calculate float_repr a b (lit "divide") = Ret res /\
      success res = false /\
      error_message res = Some (lit "Division by zero") /\
      error_mentions res (lit "zero") = true.
Proof.
  intros float_repr a b Hb.
  exists (error (lit "Division by zero")).
  split; [|repeat split; reflexivity].
  unfold calculate.
  destruct (lookup_operation_name Divide) as (f & E & Hf).
  change (operation_name Divide) with (lit "divide") in E.
  rewrite E, Hf. unfold ne_zero. rewrite Hb. reflexivity.
Qed.

Lemma calculate_divide_by_zero_witness :
  exists res : ExecutionResult.t,
    calculate (fun _ => lit "?") (PyInt 10) (PyFloat (-0)%float) (lit "divide")
    = Ret res /\
    success res = false /\
    error_message res = Some (lit "Division by zero") /\
    error_mentions res (lit "zero") = true.
Proof.
  apply (calculate_divide_by_zero (fun _ => lit "?") (PyInt 10)
           (PyFloat (-0)%float)).
  reflexivity.
Defined.

(** C5: an operation outside the four known names gives a failure whose
    message lists the valid operations: add, subtract, multiply, divide,
    in this order and nothing else. *)
Theorem calculate_unknown_operation :
  forall (float_repr : float -> str) (a b : number) (op : str),
    ~ In op valid_operations ->
    exists res : ExecutionResult.t,
      calculate float_repr a b op = Ret res /\
      success res = false /\
      error_message res
      = Some (lit "Unknown operation: " ++ op ++ lit ". Valid: "
              ++ join (lit ", ") valid_operations) /\
      join (lit ", ") valid_operations = lit "add, subtract, multiply, divide".
Proof.
  intros float_repr a b op Hop.
  eexists. unfold calculate. rewrite (lookup_unknown op Hop).
  repeat split; reflexivity.
Qed.

Lemma calculate_unknown_operation_witness :
  exists res : ExecutionResult.t,
    calculate (fun _ => lit "?") (PyInt 5) (PyInt 3) (lit "modulo") = Ret res /\
    success res = false /\
    error_message res
    = Some (lit "Unknown operation: " ++ lit "modulo" ++ lit ". Valid: "
            ++ join (lit ", ") valid_operations) /\
    join (lit ", ") valid_operations = lit "add, subtract, multiply, divide".
Proof.
  apply (calculate_unknown_operation (fun _ => lit "?") (PyInt 5) (PyInt 3)
           (lit "modulo")).
  vm_compute. intros H. repeat destruct H as [H|H]; try discriminate H.
  exact H.
Defined.

(* ================================================================== *)
(** ** Properties of [process_list] *)

Lemma gtb_within (n m : Z) : (n <= m)%Z -> Z.gtb n m = false.
Proof. intros H. rewrite Z.gtb_ltb. apply Z.ltb_ge. exact H. Qed.


Lemma process_list_on_array self items data :
  Json.loads items = Ret (VList data) ->
  process_list self items =
  if Z.gtb (Z.of_nat (length data)) (max_items self) then
    Ret (error (lit "Too many items (" ++ PyStr.of_nat (length data)
                ++ lit "). Maximum: " ++ PyStr.of_int (max_items self)))
  else
    match float_items data with
    | Raise (ValueError m) => Ret (error (lit "Invalid number: " ++ m))
    | Raise (JSONDecodeError m d p) =>
        Ret (error (lit "Invalid JSON: " ++ exn_str (JSONDecodeError m d p)))
    | Raise e => Raise e
    | Ret [] => Ret (error (lit "No valid numbers in input"))
    | Ret (x :: rest) =>
        let numbers := x :: rest in
        match PyNum.truediv (PyNum.sum numbers)
                (PyInt (Z.of_nat (length numbers))) with
        | Ret average =>
            Ret (ok (lit "Processed " ++ PyStr.of_nat (length numbers)
                     ++ lit " items")
                    (Some [ (lit "count", VInt (Z.of_nat (length numbers)));
                            (lit "sum", val_of_number (PyNum.sum numbers));
                            (lit "min",
                             VFloat (fold_left
                                       (fun m y =>
                                          if PrimFloat.ltb y m then y else m)
                                       rest x));
                            (lit "max",
                             VFloat (fold_left
                                       (fun m y =>
                                          if PrimFloat.ltb m y then y else m)
                                       rest x));
                            (lit "average", val_of_number average) ]))
        | Raise (ValueError m) => Ret (error (lit "Invalid number: " ++ m))
        | Raise (JSONDecodeError m d p) =>
            Ret (error (lit "Invalid JSON: "
                        ++ exn_str (JSONDecodeError m d p)))
        | Raise e => Raise e
        end
    end.
Proof.
  intros H. unfold process_list, process_list_try. rewrite H.
  cbn [bind].
  destruct (Z.gtb (Z.of_nat (length data)) (max_items self)); [reflexivity|].
  destruct (float_items data) as [[|x rest]|e]; cbn [bind].
  - reflexivity.
  - cbn [PyNum.min PyNum.max bind].
    destruct (truediv (PyNum.sum (x :: rest))
                (PyInt (Z.of_nat (length (x :: rest))))) as [average|e];
      cbn [bind]; [reflexivity|].
    destruct e; reflexivity.
  - destruct e; reflexivity.
Qed.



Lemma process_list_unparseable self items e :
  Json.loads items = Raise e ->
  exists msg pos,
    e = JSONDecodeError msg items pos /\
    process_list self items
    = Ret (error (lit "Invalid JSON: " ++ exn_str e)).
Proof.
  intros H.
  destruct (JsonFacts.loads_outcome items) as [(v & L)|(msg & pos & L)];
    rewrite L in H; [discriminate H|].
  injection H as <-. exists msg, pos. split; [reflexivity|].
  unfold process_list, process_list_try. rewrite L. reflexivity.
Qed.

(** C7: on "[1,2,3,4,5]", with a limit of at least five items (the default
    is 100), process_list succeeds with count 5, sum 15, min 1, max 5 and
    average 3.0. *)
Theorem process_list_one_to_five :
  forall self : PythonExampleSkill,
    (5 <= max_items self)%Z ->
    exists res : ExecutionResult.t,
      process_list self (lit "[1,2,3,4,5]") = Ret res /\
      success res = true /\
      field res (lit "count") = Some (VInt 5) /\
      field res (lit "sum") = Some (VFloat 15) /\
      field res (lit "min") = Some (VFloat 1) /\
      field res (lit "max") = Some (VFloat 5) /\
      field res (lit "average") = Some (VFloat 3) /\
      field_equals res (lit "sum") (PyInt 15) = true /\
      field_equals res (lit "min") (PyInt 1) = true /\
      field_equals res (lit "max") (PyInt 5) = true.
Proof.
  intros self Hmax.
  assert (L : Json.loads (lit "[1,2,3,4,5]")
              = Ret (VList [VInt 1; VInt 2; VInt 3; VInt 4; VInt 5]))
    by (vm_compute; reflexivity).
  rewrite (process_list_on_array self _ _ L).
  rewrite gtb_within by (simpl; lia).
  eexists. split; [vm_compute; reflexivity|].
  repeat split; vm_compute; reflexivity.
Qed.

Lemma process_list_one_to_five_witness :
  exists res : ExecutionResult.t,
    process_list default_skill (lit "[1,2,3,4,5]") = Ret res /\
    success res = true /\
    field res (lit "count") = Some (VInt 5) /\
    field res (lit "sum") = Some (VFloat 15) /\
    field res (lit "min") = Some (VFloat 1) /\
    field res (lit "max") = Some (VFloat 5) /\
    field res (lit "average") = Some (VFloat 3) /\
    field_equals res (lit "sum") (PyInt 15) = true /\
    field_equals res (lit "min") (PyInt 1) = true /\
    field_equals res (lit "max") (PyInt 5) = true.
Proof.
  apply (process_list_one_to_five default_skill).
  vm_compute. discriminate.
Defined.

Lemma entry_float_bool (b : bool) (f : float) :
  entry_float (VBool b) f <-> f = bool_float b.
Proof.
  unfold entry_float; split.
  - intros (n & Hn & Hf). injection Hn as <-.
    destruct b; vm_compute in Hf; injection Hf as <-; reflexivity.
  - intros ->. eexists; split; [reflexivity|].
    destruct b; vm_compute; reflexivity.
Qed.

Lemma float_items_entries (data : list pyval) :
  forall numbers,
    float_items data = Ret numbers ->
    Forall2 entry_float (filter isinstance_int_float data) numbers.
Proof.
  induction data as [|x data IH]; intros numbers H; cbn in H.
  - injection H as <-. constructor.
  - cbn [filter].
    assert (Hi : isinstance_int_float x
                 = match as_number x with Some _ => true | None => false end)
      by reflexivity.
    rewrite Hi; clear Hi.
    destruct (as_number x) as [n|] eqn:Hx; [|apply IH; exact H].
    destruct (to_float n) as [f|] eqn:Hf; [|discriminate H].
    cbn [bind] in H.
    destruct (float_items data) as [fs|]; [|discriminate H].
    cbn [bind] in H. injection H as <-.
    constructor; [|apply IH; reflexivity].
    exists n; split; assumption.
Qed.

Lemma float_items_bool (data : list pyval) (b : bool) :
  In (VBool b) data ->
  forall numbers, float_items data = Ret numbers -> In (bool_float b) numbers.
Proof.
  intros Hb numbers H.
  pose proof (float_items_entries data numbers H) as F.
  assert (Hin : In (VBool b) (filter isinstance_int_float data))
    by (apply filter_In; split; [exact Hb|reflexivity]).
  clear H Hb. induction F as [|x f xs fs Hxf F IH]; [contradiction|].
  destruct Hin as [->|Hin].
  - left. apply entry_float_bool in Hxf. exact Hxf.
  - right. apply IH. exact Hin.
Qed.

Lemma to_float_bool (b : bool) :
  to_float (PyInt (if b then 1 else 0)) = Ret (bool_float b).
Proof. destruct b; vm_compute; reflexivity. Qed.

Lemma float_of_int_raises (z : Z) (e : exn) :
  float_of_int z = Raise e ->
  e = OverflowError (lit "int too large to convert to float").
Proof.
  unfold float_of_int.
  destruct (binary_normalize prec emax z 0 false); try discriminate.
  intros H; injection H as <-. reflexivity.
Qed.

(** The comprehension raises only on an int that is too large. *)
Lemma float_items_raises (data : list pyval) (e : exn) :
  float_items data = Raise e ->
  exists z, In (VInt z) data /\ float_of_int z = Raise e.
Proof.
  induction data as [|x rest IH]; cbn [float_items]; [discriminate|].
  intros H.
  assert (Hrest : float_items rest = Raise e ->
                  exists z, In (VInt z) (x :: rest) /\
                            float_of_int z = Raise e).
  { intros Hr. destruct (IH Hr) as (z & Hin & Hz).
    exists z. split; [right; exact Hin|exact Hz]. }
  destruct x as [|b|z|f|t|l|d]; cbn [as_number] in H;
    try (apply Hrest; exact H).
  - rewrite to_float_bool in H. cbn [bind] in H.
    destruct (float_items rest); [discriminate H|].
    apply Hrest. exact H.
  - cbn [to_float] in H.
    destruct (float_of_int z) as [fz|ez] eqn:Hz; cbn [bind] in H.
    + destruct (float_items rest); [discriminate H|].
      apply Hrest. exact H.
    + injection H as ->. exists z. split; [left; reflexivity|exact Hz].
  - cbn [to_float bind] in H.
    destruct (float_items rest); [discriminate H|].
    apply Hrest. exact H.
Qed.

Lemma float_items_total (data : list pyval) :
  ints_in_float_range data -> exists numbers, float_items data = Ret numbers.
Proof.
  intros R. destruct (float_items data) as [numbers|e] eqn:F; [eauto|].
  destruct (float_items_raises data e F) as (z & Hin & Hz).
  specialize (R z Hin). rewrite Hz in R. discriminate R.
Qed.

(** The average of a non-empty list of fewer than 2^53 floats is
    computed: the count converts exactly and is not zero. *)
Lemma average_returns (x : float) (rest : list float) :
  (Z.of_nat (length (x :: rest)) < 2 ^ 53)%Z ->
  exists average,
    truediv (PyNum.sum (x :: rest)) (PyInt (Z.of_nat (length (x :: rest))))
    = Ret (PyFloat average).
Proof.
  intros H.
  destruct (PyNumFacts.float_of_int_small (Z.of_nat (length (x :: rest))))
    as (fy & Hfy & Hnz); [cbn [length] in *; lia|].
  cbn [PyNum.sum truediv to_float bind]. rewrite Hfy. cbn [bind].
  rewrite Hnz by (cbn [length]; lia).
  eauto.
Qed.

Lemma filter_length_le {A} (p : A -> bool) (l : list A) :
  length (filter p l) <= length l.
Proof.
  induction l as [|x l IH]; cbn [filter]; [lia|].
  destruct (p x); cbn [length]; lia.
Qed.

(** [process_list] succeeds on an array within the limit that has a
    number and whose ints are within the float range. *)
Lemma process_list_succeeds self items (arr : list pyval) :
  Json.loads items = Ret (VList arr) ->
  (Z.of_nat (length arr) <= max_items self)%Z ->
  (max_items self < 2 ^ 53)%Z ->
  ints_in_float_range arr ->
  filter isinstance_int_float arr <> [] ->
  exists (res : ExecutionResult.t) (numbers : list float),
    process_list self items = Ret res /\
    float_items arr = Ret numbers /\
    success res = true /\
    field res (lit "count")
    = Some (VInt (Z.of_nat (length (filter isinstance_int_float arr)))) /\
    field res (lit "sum") = Some (val_of_number (PyNum.sum numbers)).
Proof.
  intros L Hlen Hmax R Hne.
  destruct (float_items_total arr R) as (numbers & F).
  pose proof (float_items_entries arr numbers F) as E.
  pose proof (Forall2_length E) as Hl.
  pose proof (filter_length_le isinstance_int_float arr) as Hf.
  rewrite (process_list_on_array self _ _ L), gtb_within, F by assumption.
  destruct numbers as [|x rest].
  { destruct (filter isinstance_int_float arr); [contradiction|discriminate]. }
  cbv zeta.
  destruct (average_returns x rest) as (average & ->); [lia|].
  eexists. exists (x :: rest).
  split; [reflexivity|]. split; [reflexivity|]. split; [reflexivity|].
  rewrite Hl. split; reflexivity.
Qed.

(** What escapes from [process_list], under a limit below 2^53, is the
    OverflowError of an int entry that is too large for a float. *)
Lemma process_list_raises self items (e : exn) :
  process_list self items = Raise e ->
  (max_items self < 2 ^ 53)%Z ->
  exists arr z,
    Json.loads items = Ret (VList arr) /\ In (VInt z) arr /\
    float_of_int z = Raise e /\
    e = OverflowError (lit "int too large to convert to float").
Proof.
  intros H Hmax.
  destruct (Json.loads items) as [v|le] eqn:L.
  - destruct v as [| | | | |arr|];
      try (unfold process_list, process_list_try in H; rewrite L in H;
           discriminate H).
    rewrite (process_list_on_array self _ _ L) in H.
    destruct (Z.gtb _ _) eqn:G; [discriminate H|].
    assert (Hlen : (Z.of_nat (length arr) <= max_items self)%Z).
    { rewrite Z.gtb_ltb in G. apply Z.ltb_ge in G. exact G. }
    destruct (float_items arr) as [[|x rest]|fe] eqn:F; [discriminate H| |].
    + exfalso. cbv zeta in H.
      pose proof (Forall2_length (float_items_entries arr _ F)) as Hl.
      pose proof (filter_length_le isinstance_int_float arr) as Hf.
      destruct (average_returns x rest) as (average & A); [lia|].
      rewrite A in H. discriminate H.
    + destruct (float_items_raises arr fe F) as (z & Hin & Hz).
      pose proof (float_of_int_raises z fe Hz) as ->.
      exists arr, z. injection H as <-. repeat split; assumption.
  - destruct (process_list_unparseable self items le L) as (m & p' & _ & P).
    rewrite P in H. discriminate H.
Qed.

(** C9: a boolean entry of the array passes the [isinstance] test and is
    counted as a number, True as 1.0 and False as 0.0.  On an array with a
    boolean, within a limit below 2^53 and with its ints within the float
    range, process_list succeeds, [count] being the number of bool, int and
    float entries and [sum] their sum; whenever process_list succeeds on
    an array the statistics are these; an array with a boolean is never
    answered with "No valid numbers"; and "[true, false]" gives count 2
    and sum 1. *)
Theorem process_list_counts_booleans :
  (forall self items data b,
     Json.loads items = Ret (VList data) ->
     In (VBool b) data ->
     (Z.of_nat (length data) <= max_items self)%Z ->
     (max_items self < 2 ^ 53)%Z ->
     ints_in_float_range data ->
     exists (res : ExecutionResult.t) (numbers : list float),
       process_list self items = Ret res /\
       float_items data = Ret numbers /\
       isinstance_int_float (VBool b) = true /\
       In (bool_float b) numbers /\
       success res = true /\
       field res (lit "count")
       = Some (VInt (Z.of_nat (length (filter isinstance_int_float data)))) /\
       field res (lit "sum") = Some (val_of_number (PyNum.sum numbers))) /\
  (forall self items data res,
     Json.loads items = Ret (VList data) ->
     process_list self items = Ret res ->
     success res = true ->
     exists numbers : list float,
       float_items data = Ret numbers /\
       Forall2 entry_float (filter isinstance_int_float data) numbers /\
       (forall b, In (VBool b) data -> In (bool_float b) numbers) /\
       field res (lit "count")
       = Some (VInt (Z.of_nat (length (filter isinstance_int_float data)))) /\
       field res (lit "sum") = Some (val_of_number (PyNum.sum numbers))) /\
  (forall self items data b res,
     Json.loads items = Ret (VList data) ->
     In (VBool b) data ->
     process_list self items = Ret res ->
     error_message res <> Some (lit "No valid numbers in input")) /\
  (forall self,
     (2 <= max_items self)%Z ->
     exists res : ExecutionResult.t,
       process_list self (lit "[true, false]") = Ret res /\
       success res = true /\
       field res (lit "count") = Some (VInt 2) /\
       field res (lit "sum") = Some (VFloat 1) /\
       field_equals res (lit "sum") (PyInt 1) = true).
Proof.
  split; [|split; [|split]].
  - intros self items arr b L Hb Hlen Hmax R.
    assert (Hne : filter isinstance_int_float arr <> []).
    { intros E.
      assert (Hin : In (VBool b) (filter isinstance_int_float arr))
        by (apply filter_In; split; [exact Hb|reflexivity]).
      rewrite E in Hin. contradiction. }
    destruct (process_list_succeeds self items arr L Hlen Hmax R Hne)
      as (res & numbers & P & F & S & C & T).
    exists res, numbers.
    repeat split; try assumption.
    apply (float_items_bool arr b Hb). exact F.
  - intros self items arr res L H S.
    rewrite (process_list_on_array self _ _ L) in H.
    destruct (Z.gtb _ _); [injection H as <-; discriminate S|].
    destruct (float_items arr) as [numbers|e] eqn:F.
    + pose proof (float_items_entries arr numbers F) as E.
      exists numbers. split; [reflexivity|]. split; [exact E|].
      split.
      { intros b Hb. apply (float_items_bool arr b Hb). exact F. }
      destruct numbers as [|x rest]; [injection H as <-; discriminate S|].
      cbv zeta in H.
      destruct (truediv _ _) as [average|e].
      * injection H as <-. rewrite (Forall2_length E). split; reflexivity.
      * destruct e; try discriminate H; injection H as <-; discriminate S.
    + destruct e; try discriminate H; injection H as <-; discriminate S.
  - intros self items arr b res L Hb H.
    rewrite (process_list_on_array self _ _ L) in H.
    destruct (Z.gtb _ _); [injection H as <-; discriminate|].
    destruct (float_items arr) as [numbers|e] eqn:F.
    + pose proof (float_items_bool arr b Hb numbers F) as Hin.
      destruct numbers as [|x rest]; [contradiction|].
      cbv zeta in H.
      destruct (truediv _ _) as [average|e].
      * injection H as <-. discriminate.
      * destruct e; try discriminate H; injection H as <-; discriminate.
    + destruct e; try discriminate H; injection H as <-; discriminate.
  - intros self Hmax.
    assert (L : Json.loads (lit "[true, false]")
                = Ret (VList [VBool true; VBool false]))
      by (vm_compute; reflexivity).
    rewrite (process_list_on_array self _ _ L).
    rewrite gtb_within by (simpl; lia).
    eexists. split; [vm_compute; reflexivity|].
    repeat split; vm_compute; reflexivity.
Qed.

Lemma process_list_counts_booleans_witness :
  exists res : ExecutionResult.t,
    process_list default_skill (lit "[true, false]") = Ret res /\
    success res = true /\
    field res (lit "count") = Some (VInt 2) /\
    field res (lit "sum") = Some (VFloat 1) /\
    field_equals res (lit "sum") (PyInt 1) = true.
Proof.
  destruct process_list_counts_booleans as (_ & _ & _ & H).
  apply (H default_skill). vm_compute. discriminate.
Defined.





(* ================================================================== *)
(** ** The envelope invariant *)

Lemma ok_sound (m : str) (d : option dict) :
  invariant (ok m d) /\ built_by_constructor (ok m d).
Proof.
  split; [split|].
  - reflexivity.
  - discriminate.
  - left. eauto.
Qed.

Lemma error_sound (e : str) :
  e <> [] -> invariant (error e) /\ built_by_constructor (error e).
Proof.
  intros He. split; [split|].
  - discriminate.
  - intros _. exists e. split; [reflexivity|exact He].
  - right. eauto.
Qed.

(** A returned result is [ok ...] or [error e] with [e] a text that starts
    with a literal. *)
Ltac envelope :=
  first [ apply ok_sound | apply error_sound; discriminate ].

Lemma calculate_sound float_repr a b op res :
  calculate float_repr a b op = Ret res ->
  invariant res /\ built_by_constructor res.
Proof.
  unfold calculate.
  destruct (lookup op operations) as [f|].
  - destruct (f a b) as [[r|]|e]; cbn [bind]; intros H;
      try discriminate H; injection H as <-; envelope.
  - intros H; injection H as <-. envelope.
Qed.

Lemma process_list_try_sound self items res :
  process_list_try self items = Ret res ->
  invariant res /\ built_by_constructor res.
Proof.
  unfold process_list_try.
  destruct (Json.loads items) as [v|e]; cbn [bind]; [|discriminate].
  destruct v as [| | | | |arr|];
    try (intros H; injection H as <-; envelope).
  destruct (Z.gtb _ _);
    [intros H; injection H as <-; envelope|].
  destruct (float_items arr) as [[|x rest]|e]; cbn [bind];
    [intros H; injection H as <-; envelope| |discriminate].
  cbn [PyNum.min PyNum.max bind].
  destruct (truediv _ _) as [average|e]; cbn [bind]; [|discriminate].
  intros H; injection H as <-. envelope.
Qed.

Lemma process_list_sound self items res :
  process_list self items = Ret res ->
  invariant res /\ built_by_constructor res.
Proof.
  unfold process_list.
  destruct (process_list_try self items) as [r|e] eqn:T.
  - intros H; injection H as <-.
    apply (process_list_try_sound self items). exact T.
  - destruct e; try discriminate; intros H; injection H as <-;
      envelope.
Qed.

(** C3: every result that calculate or process_list returns satisfies
    the invariant of the envelope (success without an error message,
    failure with a non-empty one) and is the value of one of the two
    constructors, ok or error. *)
Theorem results_keep_invariant :
  (forall float_repr a b operation res,
     calculate float_repr a b operation = Ret res ->
     invariant res /\ built_by_constructor res) /\
  (forall self items res,
     process_list self items = Ret res ->
     invariant res /\ built_by_constructor res).
Proof.
  split.
  - exact calculate_sound.
  - exact process_list_sound.
Qed.

Lemma results_keep_invariant_witness :
  (invariant (error (lit "Division by zero")) /\
   built_by_constructor (error (lit "Division by zero"))) /\
  (invariant (error (lit "No valid numbers in input")) /\
   built_by_constructor (error (lit "No valid numbers in input"))).
Proof.
  destruct results_keep_invariant as (C & P). split.
  - apply (C (fun _ => lit "?") (PyInt 1) (PyInt 0) (lit "divide")).
    vm_compute. reflexivity.
  - apply (P default_skill (lit "[]")).
    vm_compute. reflexivity.
Defined.

(* ================================================================== *)
(** ** Properties of [status] *)

Lemma call_tool_keeps_instance unicode_upper float_repr self c :
  fst (call_tool unicode_upper float_repr self c) = self.
Proof. destruct c; reflexivity. Qed.

Lemma call_tools_keeps_instance unicode_upper float_repr cs :
  forall self, fst (call_tools unicode_upper float_repr self cs) = self.
Proof.
  induction cs as [|c cs IH]; intros self; [reflexivity|].
  cbn [call_tools].
  pose proof (call_tool_keeps_instance unicode_upper float_repr self c) as H.
  destruct (call_tool unicode_upper float_repr self c) as [self1 r].
  cbn [fst] in H. subst self1.
  specialize (IH self).
  destruct (call_tools unicode_upper float_repr self cs) as [self2 rs].
  exact IH.
Qed.

(** C8: two calls of status on one instance return the same content,
    also with any other tool calls in between: no tool changes the
    configuration, and status reads nothing else. *)
Theorem status_idempotent :
  forall unicode_upper float_repr (self : PythonExampleSkill)
         (between : list tool_call),
    let '(self1, first) := call_tool unicode_upper float_repr self Status in
    let '(self2, _) := call_tools unicode_upper float_repr self1 between in
    let '(self3, second) := call_tool unicode_upper float_repr self2 Status in
    first = second /\
    first = Ret (DictValue (status self)) /\
    self3 = self.
Proof.
  intros unicode_upper float_repr self between.
  cbn [call_tool].
  pose proof (call_tools_keeps_instance unicode_upper float_repr between self)
    as H.
  destruct (call_tools unicode_upper float_repr self between) as [self2 rs].
  cbn [fst] in H. subst self2.
  repeat split.
Qed.

(* ================================================================== *)
(** * Further properties *)

(* ================================================================== *)
(** ** Division of small ints *)

Module DivisionFacts.

Local Open Scope Z_scope.

Lemma iter_pos_invariant {A} (P : A -> Prop) (f : A -> A) :
  (forall x, P x -> P (f x)) ->
  forall n x, P x -> P (iter_pos f n x).
Proof.
  intros Hf. induction n as [n IH|n IH|]; intros x Hx; cbn [iter_pos]; auto.
Qed.

Lemma shr_1_bound (M : Z) (r : shr_record) :
  0 <= shr_m r <= M -> 0 <= shr_m (shr_1 r) <= M.
Proof.
  destruct r as [m r s]. cbn [shr_m]. intros H.
  destruct m as [|[p|p|]|p]; cbn [shr_1 shr_m]; lia.
Qed.

Lemma shr_bound (M : Z) (r : shr_record) (e n : Z) :
  0 <= shr_m r <= M ->
  0 <= shr_m (fst (shr r e n)) <= M /\
  (snd (shr r e n) = e \/ (0 < n /\ snd (shr r e n) = e + n)).
Proof.
  intros H. destruct n as [|p|p]; cbn [shr fst snd];
    try (split; [exact H|left; reflexivity]).
  split; [|right; lia].
  apply (iter_pos_invariant (fun x => 0 <= shr_m x <= M)); [|exact H].
  intros x. apply shr_1_bound.
Qed.

Lemma Zdigits2_bound (m K : Z) : 0 <= K -> 0 <= m < 2 ^ K -> Zdigits2 m <= K.
Proof.
  intros HK [H0 H]. destruct m as [|p|p]; cbn [Zdigits2]; [lia| |lia].
  pose proof (PyNumFacts.digits2_pos_bound p) as B.
  destruct (Z_le_gt_dec (Z.pos (digits2_pos p)) K) as [L|G]; [exact L|].
  assert (2 ^ (K + 1) <= 2 ^ Z.pos (digits2_pos p))
    by (apply Z.pow_le_mono_r; lia).
  rewrite Z.pow_add_r in * by lia. lia.
Qed.

Lemma shr_record_of_loc_m m l : shr_m (shr_record_of_loc m l) = m.
Proof. destruct l as [|[]]; reflexivity. Qed.

(** Rounding a mantissa below 2^K at an exponent of at most E stays far
    from the overflow threshold. *)
Lemma shr_fexp_bound (m e K E : Z) (l : location) :
  0 <= K -> 0 <= m < 2 ^ K -> e <= E -> 0 <= E ->
  0 <= shr_m (fst (shr_fexp prec emax m e l)) <= m /\
  snd (shr_fexp prec emax m e l) <= K + E.
Proof.
  intros HK Hm He HE. unfold shr_fexp.
  pose proof (Zdigits2_bound m K HK Hm) as D.
  destruct (shr_bound m (shr_record_of_loc m l) e
              (fexp prec emax (Zdigits2 m + e) - e)) as (B & S).
  { rewrite shr_record_of_loc_m. lia. }
  split; [exact B|].
  unfold fexp, emin, prec, emax in *.
  destruct S as [->|(_ & ->)]; lia.
Qed.

Lemma round_nearest_even_bound m l :
  0 <= m -> 0 <= round_nearest_even m l <= m + 1.
Proof.
  intros H. destruct l as [|[]]; cbn [round_nearest_even]; try lia.
  destruct (Z.even m); lia.
Qed.

Lemma binary_round_aux_finite (s : bool) (m e K E : Z) (l : location) :
  0 <= K -> 0 <= m < 2 ^ K -> e <= E -> 0 <= E ->
  2 * K + E + 1 <= 971 ->
  match binary_round_aux prec emax s m e l with
  | S754_infinity _ => False
  | _ => True
  end.
Proof.
  intros HK Hm He HE Hsmall. unfold binary_round_aux.
  destruct (shr_fexp_bound m e K E l HK Hm He HE) as (B1 & S1).
  destruct (shr_fexp prec emax m e l) as [mrs' e'] eqn:E1.
  cbn [fst snd] in B1, S1.
  pose proof (round_nearest_even_bound (shr_m mrs') (loc_of_shr_record mrs')
                ltac:(lia)) as R.
  set (m1 := round_nearest_even (shr_m mrs') (loc_of_shr_record mrs')) in *.
  assert (Hm1 : 0 <= m1 < 2 ^ (K + 1)).
  { rewrite Z.pow_add_r by lia. lia. }
  destruct (shr_fexp_bound m1 e' (K + 1) (K + E) loc_Exact
              ltac:(lia) Hm1 S1 ltac:(lia)) as (B2 & S2).
  destruct (shr_fexp prec emax m1 e' loc_Exact) as [mrs'' e''] eqn:E2.
  cbn [fst snd] in B2, S2.
  destruct (shr_m mrs''); try exact I.
  replace (Z.leb e'' (emax - prec)) with true; [exact I|].
  symmetry. apply Z.leb_le. unfold emax, prec. lia.
Qed.

Lemma digits2_pos_pos (p : positive) : 1 <= Z.pos (digits2_pos p).
Proof. lia. Qed.

Lemma SFdiv_core_small (pa pb : positive) :
  Z.pos pa < 2 ^ 53 -> Z.pos pb < 2 ^ 53 ->
  let '(q, e, _) := SFdiv_core_binary prec emax (Z.pos pa) 0 (Z.pos pb) 0 in
  0 <= q < 2 ^ 158 /\ e <= 0.
Proof.
  intros Ha Hb. unfold SFdiv_core_binary.
  pose proof (PyNumFacts.digits2_pos_small pa Ha) as Da.
  pose proof (PyNumFacts.digits2_pos_small pb Hb) as Db.
  cbn [Zdigits2].
  set (e' := Z.min (fexp prec emax
                      (Z.pos (digits2_pos pa) + 0 - (Z.pos (digits2_pos pb) + 0)))
                   (0 - 0)).
  assert (He : -105 <= e' <= 0).
  { unfold e', fexp, emin, prec, emax. lia. }
  set (m' := match 0 - 0 - e' with
             | Z.pos _ => Z.shiftl (Z.pos pa) (0 - 0 - e')
             | Z0 => Z.pos pa
             | Z.neg _ => 0
             end).
  assert (Hm : 0 <= m' < 2 ^ 158).
  { unfold m'. destruct (0 - 0 - e') as [|s|s] eqn:Es.
    - split; [lia|]. eapply Z.lt_le_trans; [exact Ha|].
      apply Z.pow_le_mono_r; lia.
    - rewrite Z.shiftl_mul_pow2 by lia. split; [lia|].
      assert (2 ^ Z.pos s <= 2 ^ 105) by (apply Z.pow_le_mono_r; lia).
      change (2 ^ 158) with (2 ^ 53 * 2 ^ 105).
      assert (0 < 2 ^ Z.pos s) by (apply Z.pow_pos_nonneg; lia).
      nia.
    - split; [lia|]. apply Z.pow_pos_nonneg; lia. }
  pose proof (Z.div_pos m' (Z.pos pb) ltac:(lia) ltac:(lia)) as Q0.
  assert (Q1 : m' / Z.pos pb <= m').
  { apply Z.div_le_upper_bound; [lia|]. nia. }
  unfold Z.div in Q0, Q1.
  destruct (Z.div_eucl m' (Z.pos pb)) as [q r]. cbn [fst] in Q0, Q1.
  split; lia.
Qed.

(** The quotient of two ints below 2^53 in absolute value is within the
    float range. *)
Lemma int_truediv_small (a b : Z) :
  Z.abs a < 2 ^ 53 -> Z.abs b < 2 ^ 53 -> b <> 0 ->
  exists q, int_truediv a b = Ret q.
Proof.
  intros Ha Hb Hnz. unfold int_truediv.
  destruct (Z.eqb_spec b 0) as [->|_]; [contradiction|].
  assert (F : forall sa sb pa pb,
             Z.pos pa < 2 ^ 53 -> Z.pos pb < 2 ^ 53 ->
             exists q,
               match SFdiv prec emax (S754_finite sa pa 0) (S754_finite sb pb 0)
               with
               | S754_infinity _ =>
                   Raise (OverflowError
                            (lit "integer division result too large for a float"))
               | q => Ret (SF2Prim q)
               end = Ret q).
  { intros sa sb pa pb Hpa Hpb. cbn [SFdiv].
    pose proof (SFdiv_core_small pa pb Hpa Hpb) as C.
    destruct (SFdiv_core_binary prec emax (Z.pos pa) 0 (Z.pos pb) 0)
      as [[q e] l].
    destruct C as (Hq & He).
    pose proof (binary_round_aux_finite (xorb sa sb) q e 158 0 l
                  ltac:(lia) Hq He ltac:(lia) ltac:(lia)) as R.
    destruct (binary_round_aux prec emax (xorb sa sb) q e l);
      try contradiction; eauto. }
  destruct a as [|pa|pa], b as [|pb|pb]; try contradiction;
    cbn [SF_of_Z]; try (cbn [SFdiv]; eauto); apply F; lia.
Qed.

End DivisionFacts.

(* ================================================================== *)
(** ** Further properties of [echo] and [greet] *)

Lemma upper_ascii (unicode_upper : N -> list N) (m : str) :
  is_ascii m -> upper unicode_upper m = map ascii_upper m.
Proof.
  unfold is_ascii, upper. induction 1 as [|c m Hc Hm IH]; [reflexivity|].
  cbn [flat_map map]. rewrite IH. unfold upper_char.
  apply N.ltb_lt in Hc. rewrite Hc. reflexivity.
Qed.

Lemma ascii_upper_range (c : N) :
  (c < 128)%N ->
  (ascii_upper c < 128)%N /\ is_ascii_lower (ascii_upper c) = false /\
  ascii_upper (ascii_upper c) = ascii_upper c /\
  (is_ascii_lower c = false -> ascii_upper c = c).
Proof.
  intros Hc. unfold ascii_upper, is_ascii_lower.
  destruct (N.leb_spec 97 c) as [L1|L1], (N.leb_spec c 122) as [L2|L2];
    cbn [andb];
    repeat match goal with
    | |- context [N.leb ?a ?b] => destruct (N.leb_spec a b)
    end; cbn [andb]; repeat split; try lia; try discriminate;
    try reflexivity.
Qed.

Lemma map_ascii_upper_ascii (m : str) :
  is_ascii m -> is_ascii (map ascii_upper m).
Proof.
  unfold is_ascii. induction 1 as [|c m Hc Hm IH]; constructor;
    [apply ascii_upper_range; exact Hc|exact IH].
Qed.

(** X1: reversing is its own inverse and keeps the length: echoing a
    reversed message with [reverse] again gives the message back. *)
Theorem echo_reverse_twice :
  forall unicode_upper message,
    echo unicode_upper (echo unicode_upper message false true) false true
    = message /\
    length (echo unicode_upper message false true) = length message.
Proof.
  intros unicode_upper message. unfold echo, reversed. split.
  - apply rev_involutive.
  - apply length_rev.
Qed.

(** X2: on an ASCII message the two transformations commute: reversing
    first and upper-casing in a second call gives what one call with both
    flags gives. *)
Theorem echo_ascii_commutes :
  forall unicode_upper message,
    is_ascii message ->
    echo unicode_upper (echo unicode_upper message false true) true false
    = echo unicode_upper message true true.
Proof.
  intros unicode_upper message H. unfold echo, reversed.
  rewrite (upper_ascii unicode_upper message H).
  rewrite upper_ascii by (apply Forall_rev; exact H).
  apply map_rev.
Qed.

Lemma echo_ascii_commutes_witness :
  echo (fun c => [c]) (echo (fun c => [c]) (lit "stressed") false true)
    true false
  = echo (fun c => [c]) (lit "stressed") true true.
Proof.
  apply (echo_ascii_commutes (fun c => [c]) (lit "stressed")).
  unfold is_ascii. repeat constructor.
Defined.

(** X3: upper-casing an ASCII message keeps its length and its being
    ASCII, leaves no lower-case letter, changes nothing in a message
    without lower-case letters, and is idempotent. *)
Theorem echo_ascii_uppercase :
  forall unicode_upper message,
    is_ascii message ->
    let shouted := echo unicode_upper message true false in
    length shouted = length message /\
    is_ascii shouted /\
    Forall (fun c => is_ascii_lower c = false) shouted /\
    (Forall (fun c => is_ascii_lower c = false) message ->
     shouted = message) /\
    echo unicode_upper shouted true false = shouted.
Proof.
  intros unicode_upper message H. cbv zeta. unfold echo.
  rewrite (upper_ascii unicode_upper message H).
  rewrite upper_ascii by (apply map_ascii_upper_ascii; exact H).
  split; [apply length_map|]. split; [apply map_ascii_upper_ascii; exact H|].
  unfold is_ascii in H. split; [|split].
  - induction H as [|c m Hc Hm IH]; constructor;
      [apply ascii_upper_range; exact Hc|exact IH].
  - intros L. induction H as [|c m Hc Hm IH]; [reflexivity|].
    inversion L as [|? ? Lc Lm]; subst. cbn [map].
    rewrite IH by exact Lm.
    destruct (ascii_upper_range c Hc) as (_ & _ & _ & E).
    now rewrite E.
  - induction H as [|c m Hc Hm IH]; [reflexivity|].
    cbn [map]. rewrite IH.
    destruct (ascii_upper_range c Hc) as (_ & _ & E & _).
    now rewrite E.
Qed.

Lemma echo_ascii_uppercase_witness :
  let shouted := echo (fun c => [c]) (lit "Hello, World 42!") true false in
  length shouted = length (lit "Hello, World 42!") /\
  is_ascii shouted /\
  Forall (fun c => is_ascii_lower c = false) shouted /\
  (Forall (fun c => is_ascii_lower c = false) (lit "Hello, World 42!") ->
   shouted = lit "Hello, World 42!") /\
  echo (fun c => [c]) shouted true false = shouted.
Proof.
  apply (echo_ascii_uppercase (fun c => [c]) (lit "Hello, World 42!")).
  unfold is_ascii. repeat constructor.
Defined.

(** X4: a greeting mentions the name it was asked for, in both styles;
    the informal one starts with the configured prefix and the formal one
    is the same under every configuration. *)
Theorem greet_mentions_name :
  forall self name formal,
    contains name (greet self name formal) = true /\
    startswith (greeting_prefix self) (greet self name false) = true /\
    (forall other, greet other name true = greet self name true).
Proof.
  intros self name formal. split; [|split].
  - unfold greet. destruct formal.
    + apply PyStrFacts.contains_app_r. apply PyStrFacts.contains_here.
    + apply PyStrFacts.contains_app_r. apply PyStrFacts.contains_app_r.
      apply PyStrFacts.contains_here.
  - unfold greet. apply PyStrFacts.startswith_app.
  - intros other. reflexivity.
Qed.

(* ================================================================== *)
(** ** Further properties of [calculate] *)

Lemma calculate_known float_repr (op : operation) (a b : number) :
  calculate float_repr a b (operation_name op)
  = if (match op with Divide => is_zero b | _ => false end)
    then Ret (error (lit "Division by zero"))
    else r <- arithmetic op a b ;; Ret (calculate_result float_repr op a b r).
Proof.
  unfold calculate.
  destruct (lookup_operation_name op) as (f & -> & Hf). rewrite Hf.
  destruct op; try (destruct (arithmetic _ a b); reflexivity).
  unfold ne_zero. destruct (is_zero b); cbn [negb]; [reflexivity|].
  destruct (arithmetic Divide a b); reflexivity.
Qed.

Lemma valid_operation_name (op : str) :
  In op valid_operations -> exists o, op = operation_name o.
Proof.
  unfold valid_operations. intros H. apply in_map_iff in H.
  destruct H as (o & <- & _). eauto.
Qed.

Lemma operation_name_valid (o : operation) :
  In (operation_name o) valid_operations.
Proof.
  unfold valid_operations. apply in_map. destruct o; simpl; tauto.
Qed.

Lemma operation_name_divide (o : operation) :
  operation_name o = lit "divide" -> o = Divide.
Proof.
  destruct o; intros H; try reflexivity; vm_compute in H; discriminate H.
Qed.

Lemma to_float_safe (x : number) :
  safe_number x ->
  exists f, to_float x = Ret f /\
            (ne_zero x = true -> PrimFloat.eqb f 0%float = false).
Proof.
  destruct x as [z|f]; cbn [safe_number to_float]; intros H.
  - destruct (PyNumFacts.float_of_int_small z H) as (f & Hf & Hnz).
    exists f. split; [exact Hf|]. intros N. apply Hnz.
    unfold ne_zero, is_zero in N. intros ->. discriminate N.
  - exists f. split; [reflexivity|]. unfold ne_zero, is_zero.
    destruct (PrimFloat.eqb f 0); [discriminate|reflexivity].
Qed.

Lemma arithmetic_safe (op : operation) (a b : number) :
  safe_number a -> safe_number b ->
  (op = Divide -> ne_zero b = true) ->
  exists r, arithmetic op a b = Ret r.
Proof.
  intros Ha Hb Hnz.
  destruct (to_float_safe a Ha) as (fa & Fa & _).
  destruct (to_float_safe b Hb) as (fb & Fb & Zb).
  assert (A : forall iop fop, exists r, arith iop fop a b = Ret r).
  { intros iop fop. unfold arith.
    destruct a as [x|x], b as [y|y]; try (eexists; reflexivity);
      rewrite ?Fa, ?Fb; cbn [bind to_float]; rewrite ?Fa, ?Fb;
      cbn [bind]; eexists; reflexivity. }
  destruct op; cbn [arithmetic]; try apply A.
  specialize (Hnz eq_refl). specialize (Zb Hnz).
  unfold truediv.
  destruct a as [x|x], b as [y|y].
  - destruct (DivisionFacts.int_truediv_small x y Ha Hb) as (q & ->).
    + unfold ne_zero, is_zero in Hnz. intros ->. discriminate Hnz.
    + eexists; reflexivity.
  - cbn [to_float] in Fa, Fb |- *. rewrite Fa. cbn [bind].
    injection Fb as <-. rewrite Zb. eexists; reflexivity.
  - cbn [to_float] in Fa, Fb |- *. cbn [bind]. rewrite Fb. cbn [bind].
    rewrite Zb. eexists; reflexivity.
  - cbn [to_float] in Fa, Fb |- *. cbn [bind]. injection Fb as <-.
    rewrite Zb. eexists; reflexivity.
Qed.

(** X5: when calculate returns, the result is a failure in two cases and
    no other: the operation is not one of the four names, or it is divide
    and the divisor equals zero. *)
Theorem calculate_failure_cases :
  forall float_repr a b op res,
    calculate float_repr a b op = Ret res ->
    (success res = false <->
     ~ In op valid_operations \/ (op = lit "divide" /\ is_zero b = true)).
Proof.
  intros float_repr a b op res H.
  destruct (in_dec (list_eq_dec N.eq_dec) op valid_operations) as [V|V].
  - destruct (valid_operation_name op V) as (o & ->).
    rewrite calculate_known in H.
    destruct (match o with Divide => is_zero b | _ => false end) eqn:Z.
    + injection H as <-. split; [|reflexivity]. intros _. right.
      destruct o; try discriminate Z. split; [reflexivity|exact Z].
    + destruct (arithmetic o a b) as [r|e]; [|discriminate H].
      injection H as <-. split; [discriminate|].
      intros [N|(E & Zb)]; [contradiction|].
      apply operation_name_divide in E. subst o. congruence.
  - unfold calculate in H. rewrite (lookup_unknown op V) in H.
    injection H as <-. split; [intros _; left; exact V|reflexivity].
Qed.

Lemma calculate_failure_cases_witness :
  success (error (lit "Division by zero")) = false <->
  ~ In (lit "divide") valid_operations \/
  (lit "divide" = lit "divide" /\ is_zero (PyInt 0) = true).
Proof.
  apply (calculate_failure_cases (fun _ => lit "?") (PyInt 7) (PyInt 0)
           (lit "divide")).
  reflexivity.
Defined.

(** X6: calculate raises nothing when each argument is a float or an int
    below 2^53 in absolute value, whatever the operation string: it
    returns a result, a success or a failure. *)
Theorem calculate_total_on_safe_numbers :
  forall float_repr a b op,
    safe_number a -> safe_number b ->
    exists res : ExecutionResult.t, calculate float_repr a b op = Ret res.
Proof.
  intros float_repr a b op Ha Hb.
  destruct (in_dec (list_eq_dec N.eq_dec) op valid_operations) as [V|V].
  - destruct (valid_operation_name op V) as (o & ->).
    rewrite calculate_known.
    destruct (match o with Divide => is_zero b | _ => false end) eqn:Z;
      [eauto|].
    destruct (arithmetic_safe o a b Ha Hb) as (r & ->).
    + intros ->. unfold ne_zero. now rewrite Z.
    + cbn [bind]. eauto.
  - unfold calculate. rewrite (lookup_unknown op V). eauto.
Qed.

Lemma calculate_total_on_safe_numbers_witness :
  exists res : ExecutionResult.t,
    calculate (fun _ => lit "?") (PyInt (2 ^ 53 - 1)) (PyFloat 0.5)
      (lit "divide") = Ret res.
Proof.
  apply (calculate_total_on_safe_numbers (fun _ => lit "?")
           (PyInt (2 ^ 53 - 1)) (PyFloat 0.5) (lit "divide")).
  - vm_compute. reflexivity.
  - exact I.
Defined.


(* ================================================================== *)
(** ** Further properties of [process_list] *)

Lemma fold_left_pick {A} (f : A -> A -> A) :
  (forall m y, f m y = m \/ f m y = y) ->
  forall rest x, In (fold_left f rest x) (x :: rest).
Proof.
  intros Hf. induction rest as [|y rest IH]; intros x; cbn [fold_left].
  - left. reflexivity.
  - destruct (IH (f x y)) as [E|E].
    + rewrite <- E. destruct (Hf x y) as [F|F]; rewrite F.
      * left. reflexivity.
      * right. left. reflexivity.
    + right. right. exact E.
Qed.

Lemma float_items_filter (data : list pyval) :
  float_items (filter isinstance_int_float data) = float_items data.
Proof.
  induction data as [|x rest IH]; [reflexivity|].
  cbn [filter float_items]. unfold isinstance_int_float at 1.
  destruct (as_number x) as [n|] eqn:Hx; [|exact IH].
  cbn [float_items]. rewrite Hx, IH. reflexivity.
Qed.

Lemma float_items_in_range (data : list pyval) (numbers : list float) :
  float_items data = Ret numbers -> ints_in_float_range data.
Proof.
  intros F z Hin.
  destruct (float_of_int z) as [f|e] eqn:Hz; [reflexivity|].
  exfalso. revert numbers F.
  induction data as [|x rest IH]; intros numbers F; [contradiction|].
  cbn [float_items] in F.
  destruct Hin as [->|Hin].
  - cbn [as_number to_float] in F. rewrite Hz in F. discriminate F.
  - destruct (as_number x) as [n|]; [|exact (IH Hin _ F)].
    destruct (to_float n); [|discriminate F]. cbn [bind] in F.
    destruct (float_items rest) as [fs|]; [|discriminate F].
    exact (IH Hin fs eq_refl).
Qed.

(** X8: whenever process_list succeeds, its input is an array within the
    limit, [count] is the number of its bool, int and float entries, at
    least one and at most the length of the array, the message reports
    that count, and [min] and [max] are floats of entries of the array. *)
Theorem process_list_success_content :
  forall self items res,
    process_list self items = Ret res ->
    success res = true ->
    exists (arr : list pyval) (numbers : list float),
      Json.loads items = Ret (VList arr) /\
      float_items arr = Ret numbers /\
      (1 <= length numbers <= length arr) /\
      (Z.of_nat (length arr) <= max_items self)%Z /\
      field res (lit "count") = Some (VInt (Z.of_nat (length numbers))) /\
      message res
      = lit "Processed " ++ PyStr.of_nat (length numbers) ++ lit " items" /\
      (exists lo, float_field res (lit "min") = Some lo /\ In lo numbers) /\
      (exists hi, float_field res (lit "max") = Some hi /\ In hi numbers).
Proof.
  intros self items res H S.
  destruct (Json.loads items) as [v|le] eqn:L.
  - destruct v as [| | | | |arr|];
      try (unfold process_list, process_list_try in H; rewrite L in H;
           injection H as <-; discriminate S).
    rewrite (process_list_on_array self _ _ L) in H.
    destruct (Z.gtb _ _) eqn:G; [injection H as <-; discriminate S|].
    rewrite Z.gtb_ltb in G. apply Z.ltb_ge in G.
    destruct (float_items arr) as [[|x rest]|fe] eqn:F;
      [injection H as <-; discriminate S| |
       destruct fe; try discriminate H; injection H as <-; discriminate S].
    cbv zeta in H.
    destruct (truediv _ _) as [average|e];
      [|destruct e; try discriminate H; injection H as <-; discriminate S].
    injection H as <-.
    pose proof (Forall2_length (float_items_entries arr _ F)) as Hl.
    pose proof (filter_length_le isinstance_int_float arr) as Hf.
    exists arr, (x :: rest).
    split; [reflexivity|]. split; [exact F|].
    split; [cbn [length] in *; lia|]. split; [exact G|].
    split; [reflexivity|]. split; [reflexivity|]. split.
    + eexists. split; [reflexivity|].
      apply fold_left_pick. intros m y. destruct (PrimFloat.ltb y m); auto.
    + eexists. split; [reflexivity|].
      apply fold_left_pick. intros m y. destruct (PrimFloat.ltb m y); auto.
  - destruct (process_list_unparseable self items le L) as (m & p' & _ & P).
    rewrite P in H. injection H as <-. discriminate S.
Qed.

Lemma process_list_success_content_witness :
  exists (arr : list pyval) (numbers : list float),
    Json.loads (lit "[3, null, 1.5, true]") = Ret (VList arr) /\
    float_items arr = Ret numbers /\
    (1 <= length numbers <= length arr) /\
    (Z.of_nat (length arr) <= max_items default_skill)%Z /\
    field (ok (lit "Processed 3 items")
             (Some [ (lit "count", VInt 3); (lit "sum", VFloat 5.5);
                     (lit "min", VFloat 1); (lit "max", VFloat 3);
                     (lit "average", VFloat 1.8333333333333333) ]))
      (lit "count")
    = Some (VInt (Z.of_nat (length numbers))) /\
    lit "Processed 3 items"
    = lit "Processed " ++ PyStr.of_nat (length numbers) ++ lit " items" /\
    (exists lo, Some 1%float = Some lo /\ In lo numbers) /\
    (exists hi, Some 3%float = Some hi /\ In hi numbers).
Proof.
  apply (process_list_success_content default_skill
           (lit "[3, null, 1.5, true]")
           (ok (lit "Processed 3 items")
              (Some [ (lit "count", VInt 3); (lit "sum", VFloat 5.5);
                      (lit "min", VFloat 1); (lit "max", VFloat 3);
                      (lit "average", VFloat 1.8333333333333333) ]))).
  - vm_compute. reflexivity.
  - reflexivity.
Defined.

(** X9: under a limit below 2^53, process_list succeeds exactly on the
    documents that are an array of at most [max_items] entries with at
    least one bool, int or float entry and with every int within the
    float range. *)
Theorem process_list_succeeds_iff :
  forall self items,
    (max_items self < 2 ^ 53)%Z ->
    ((exists res, process_list self items = Ret res /\ success res = true)
     <->
     (exists arr,
        Json.loads items = Ret (VList arr) /\
        (Z.of_nat (length arr) <= max_items self)%Z /\
        ints_in_float_range arr /\
        filter isinstance_int_float arr <> [])).
Proof.
  intros self items Hmax. split.
  - intros (res & H & S).
    destruct (Json.loads items) as [v|le] eqn:L.
    + destruct v as [| | | | |arr|];
        try (unfold process_list, process_list_try in H; rewrite L in H;
             injection H as <-; discriminate S).
      rewrite (process_list_on_array self _ _ L) in H.
      destruct (Z.gtb _ _) eqn:G; [injection H as <-; discriminate S|].
      rewrite Z.gtb_ltb in G. apply Z.ltb_ge in G.
      destruct (float_items arr) as [numbers|fe] eqn:F;
        [|destruct fe; try discriminate H; injection H as <-;
          discriminate S].
      exists arr. split; [reflexivity|]. split; [exact G|].
      split; [exact (float_items_in_range arr numbers F)|].
      intros E. pose proof (float_items_entries arr numbers F) as Hn.
      rewrite E in Hn. inversion Hn; subst.
      injection H as <-. discriminate S.
    + destruct (process_list_unparseable self items le L)
        as (m & p' & _ & P).
      rewrite P in H. injection H as <-. discriminate S.
  - intros (arr & L & Hlen & R & Hne).
    destruct (process_list_succeeds self items arr L Hlen Hmax R Hne)
      as (res & numbers & P & _ & S & _).
    exists res. split; assumption.
Qed.

Lemma process_list_succeeds_iff_witness :
  (exists res,
     process_list default_skill (lit "[1, null, 2.5]") = Ret res /\
     success res = true)
  <->
  (exists arr,
     Json.loads (lit "[1, null, 2.5]") = Ret (VList arr) /\
     (Z.of_nat (length arr) <= max_items default_skill)%Z /\
     ints_in_float_range arr /\
     filter isinstance_int_float arr <> []).
Proof.
  apply (process_list_succeeds_iff default_skill (lit "[1, null, 2.5]")).
  vm_compute. reflexivity.
Defined.

(** X10: an int entry beyond the float range, in an array within the
    limit, makes process_list raise OverflowError: the conversion fails
    inside the comprehension and neither handler takes it. *)
Theorem process_list_overflow_escapes :
  forall self items arr z,
    Json.loads items = Ret (VList arr) ->
    (Z.of_nat (length arr) <= max_items self)%Z ->
    In (VInt z) arr ->
    returns (float_of_int z) = false ->
    process_list self items
    = Raise (OverflowError (lit "int too large to convert to float")).
Proof.
  intros self items arr z L Hlen Hin Hz.
  rewrite (process_list_on_array self _ _ L), gtb_within by exact Hlen.
  destruct (float_items arr) as [numbers|e] eqn:F.
  - pose proof (float_items_in_range arr numbers F z Hin) as R.
    rewrite R in Hz. discriminate Hz.
  - destruct (float_items_raises arr e F) as (z' & _ & Hz').
    rewrite (float_of_int_raises z' e Hz'). reflexivity.
Qed.

Lemma process_list_overflow_escapes_witness :
  process_list default_skill (lit "[1, 1" ++ repeat (cp "0") 400 ++ lit "]")
  = Raise (OverflowError (lit "int too large to convert to float")).
Proof.
  apply (process_list_overflow_escapes default_skill
           (lit "[1, 1" ++ repeat (cp "0") 400 ++ lit "]")
           [VInt 1; VInt (10 ^ 400)] (10 ^ 400)).
  - vm_compute. reflexivity.
  - vm_compute. discriminate.
  - right. left. reflexivity.
  - vm_compute. reflexivity.
Defined.

(** X11: entries that are not bool, int or float are skipped: two arrays
    within the limit that agree on their bool, int and float entries get
    the same answer. *)
Theorem process_list_skips_other_entries :
  forall self items1 items2 arr1 arr2,
    Json.loads items1 = Ret (VList arr1) ->
    Json.loads items2 = Ret (VList arr2) ->
    (Z.of_nat (length arr1) <= max_items self)%Z ->
    (Z.of_nat (length arr2) <= max_items self)%Z ->
    filter isinstance_int_float arr1 = filter isinstance_int_float arr2 ->
    process_list self items1 = process_list self items2.
Proof.
  intros self items1 items2 arr1 arr2 L1 L2 H1 H2 E.
  rewrite (process_list_on_array self _ _ L1), gtb_within by exact H1.
  rewrite (process_list_on_array self _ _ L2), gtb_within by exact H2.
  rewrite <- (float_items_filter arr1), <- (float_items_filter arr2), E.
  reflexivity.
Qed.

Lemma process_list_skips_other_entries_witness :
  process_list default_skill (lit "[1, null, [2], 2.5, {}]")
  = process_list default_skill (lit "[1, 2.5]").
Proof.
  apply (process_list_skips_other_entries default_skill
           (lit "[1, null, [2], 2.5, {}]") (lit "[1, 2.5]")
           [VInt 1; VNone; VList [VInt 2]; VFloat 2.5; VDict []]
           [VInt 1; VFloat 2.5]).
  - vm_compute. reflexivity.
  - vm_compute. reflexivity.
  - vm_compute. discriminate.
  - vm_compute. discriminate.
  - reflexivity.
Defined.

(* ================================================================== *)
(** ** Further properties of [status] *)

(** X12: status reports the two configuration values of the instance,
    and nothing of the configuration is lost: two instances with the same
    status are the same. *)
Theorem status_reports_config :
  forall self,
    status_config self (lit "greeting_prefix")
    = Some (VStr (greeting_prefix self)) /\
    status_config self (lit "max_items") = Some (VInt (max_items self)) /\
    (forall other, status other = status self -> other = self).
Proof.
  intros self. split; [reflexivity|]. split; [reflexivity|].
  intros other H. destruct self as [p m], other as [p' m'].
  unfold status in H. cbn [greeting_prefix max_items] in H.
  injection H as -> ->. reflexivity.
Qed.

(** X13: the list [tools_available] of status names each of the five
    tools of the class, once, and nothing else. *)
Theorem status_lists_the_tools :
  forall self,
    (forall c, In (VStr (tool_name c)) (tools_available self)) /\
    (forall v, In v (tools_available self) ->
               exists c, v = VStr (tool_name c)) /\
    NoDup (tools_available self).
Proof.
  intros self. split; [|split].
  - intros c. destruct c; cbn; tauto.
  - intros v H. cbn in H.
    destruct H as [<-|[<-|[<-|[<-|[<-|[]]]]]].
    + exists (Greet [] false). reflexivity.
    + exists (Echo [] false false). reflexivity.
    + exists (Calculate (PyInt 0) (PyInt 0) []). reflexivity.
    + exists (ProcessList []). reflexivity.
    + exists Status. reflexivity.
  - cbn. repeat constructor; cbn; intros H;
      repeat (destruct H as [H|H]; [discriminate H|]); exact H.
Qed.
